(** * Meta: schema normalisation, validation, coercion and node wrapping

    A shallow embedding of the core of the Meta package
    (schema.py, schema_validator.py, helpers.py, meta_base.py, meta_core.py,
    meta.py) together with the properties stated for it.

    Python objects are one inductive type [obj]: plain data, schema
    expressions (classes, typing generics, unions), [Schema] instances and
    the wrapped Meta* nodes all live in it, because the program passes all
    of them through the same functions.  Exceptions are values of [exn] in
    the result type [res].

    Conventions of the model
    - dicts are association lists in insertion order, sets are duplicate-free
      lists in insertion order (CPython iterates a set in hash order; where
      the program depends on that order the model fixes insertion order);
    - floats are rational numbers (no rounding, no nan or inf);
    - [typing.Any] is a special form, not a class (CPython 3.10, the version
      the comments of schema.py name);
    - recursion that follows both a value and a schema takes a fuel
      argument; [OutOfFuel] is never a result the program can produce. *)

From Stdlib Require Import ZArith QArith List String Ascii Bool Lia.
Import ListNotations.
Local Open Scope string_scope.
Local Open Scope list_scope.
Local Open Scope Z_scope.

(** ** Results and exceptions *)

(** The messages the program distinguishes when it raises [TypeError]. *)
Inductive tmsg :=
| KeyNotAllowed      (* "Key '..' not allowed by schema" *)
| ExpectedOneOf      (* type_check: "expected one of (..), got .." *)
| ExpectedSet        (* type_check: "expected a set, got .." *)
| ExpectedList       (* type_check: "expected a list, got .." *)
| ExpectedDict       (* type_check: "expected a dict, got .." *)
| ExpectedType       (* type_check: "expected T, got .." *)
| ExpectedTuple      (* validate_tuple: "expected tuple, got .." *)
| TupleArity         (* validate_tuple: "expected n elements, got m" *)
| NoUnionMatch       (* "did not match any Union types" *)
| InvalidKeyType     (* __setitem__ / update: "Invalid key type" *)
| ValidationError    (* MetaNodeMixin: "[ValidationError in ..] .." *)
| UnsupportedType    (* wrap_meta_structure: "Unsupported type" *)
| UnsupportedInit    (* MetaContainer.__init__: "Unsupported init" *)
| NormalizeExpected  (* normalize_data: "Expected list/set/tuple, got .." *)
| SetitemOnSet       (* __setitem__: "setitem not supported for sets" *)
| Unhashable         (* interpreter: unhashable type / bad __hash__ *)
| BadIsinstanceArg   (* interpreter: isinstance() arg 2 must be a type *)
| NotIterable        (* interpreter: object is not iterable *)
| NotCallable        (* interpreter: object is not callable *)
| BadArguments.      (* interpreter: wrong arguments to a constructor *)

Inductive exn :=
| TypeError (m : tmsg)
| ValueError
| AttributeError
| IndexError
| KeyError
| AssertionError
| NotImplementedError
| SystemExit         (* exit(0) *)
| OutOfFuel          (* the model ran out of fuel: not a Python outcome *)
| Unmodelled.        (* a corner of the interpreter the model leaves out *)

Inductive res (A : Type) :=
| Ok (a : A)
| Raise (e : exn).
Arguments Ok {A} a.
Arguments Raise {A} e.

Definition bind {A B} (r : res A) (f : A -> res B) : res B :=
  match r with
  | Ok a => f a
  | Raise e => Raise e
  end.

Notation "x <- c ;; k" := (bind c (fun x => k))
  (at level 61, c at next level, right associativity).
Notation "c ;;; k" := (bind c (fun _ => k))
  (at level 61, right associativity).

(** [try: c except TypeError: h] *)
Definition catch_TypeError {A} (c : res A) (h : res A) : res A :=
  match c with
  | Raise (TypeError _) => h
  | r => r
  end.

(** [try: c except Exception: h]; running out of fuel is not an exception. *)
Definition catch_Exception {A} (c : res A) (h : res A) : res A :=
  match c with
  | Raise OutOfFuel => Raise OutOfFuel
  | Raise Unmodelled => Raise Unmodelled
  | Raise SystemExit => Raise SystemExit
  | Raise _ => h
  | r => r
  end.

Fixpoint mapM {A B} (f : A -> res B) (l : list A) : res (list B) :=
  match l with
  | [] => Ok []
  | a :: l' => b <- f a ;; bs <- mapM f l' ;; Ok (b :: bs)
  end.

Fixpoint forM_ {A} (f : A -> res unit) (l : list A) : res unit :=
  match l with
  | [] => Ok tt
  | a :: l' => f a ;;; forM_ f l'
  end.

(** ** Python objects *)

(** The built-in classes the program names. *)
Inductive pytype :=
| t_bool | t_int | t_float | t_str
| t_dict | t_list | t_tuple | t_set
| t_NoneType.

Definition pytype_eqb (a b : pytype) : bool :=
  match a, b with
  | t_bool, t_bool | t_int, t_int | t_float, t_float | t_str, t_str
  | t_dict, t_dict | t_list, t_list | t_tuple, t_tuple | t_set, t_set
  | t_NoneType, t_NoneType => true
  | _, _ => false
  end.

(** [cls.__name__] *)
Definition type_name (t : pytype) : string :=
  match t with
  | t_bool => "bool" | t_int => "int" | t_float => "float" | t_str => "str"
  | t_dict => "dict" | t_list => "list" | t_tuple => "tuple" | t_set => "set"
  | t_NoneType => "NoneType"
  end.

(** The validator classes a [Schema] can hold in [validator_cls]. *)
Inductive vcls := SchemaValidatorCls | NoOpValidatorCls.

(** The classes of META_TYPE_MAP. *)
Inductive metakind :=
| MetaBool | MetaInt | MetaFloat | MetaStr
| MetaDict | MetaList | MetaTuple | MetaSet | MetaNone.

#[warnings="-register-all"]
Inductive obj :=
| PNone
| PBool (b : bool)
| PInt (z : Z)
| PFloat (q : Q)
| PStr (s : string)
| PList (l : list obj)
| PTuple (l : list obj)
| PSet (l : list obj)
| PDict (l : list (obj * obj))
| PEllipsis
| PType (t : pytype)                      (* a class: int, str, dict, ... *)
| PAny                                    (* typing.Any *)
| PUnion (pep604 : bool) (args : list obj)
    (* typing.Union[...] (false) or X | Y (true); args = get_args *)
| PGeneric (origin : pytype) (args : list obj)
    (* Dict[K, V], List[T], Set[T], Tuple[...]; args = get_args *)
| PSchema (schema : obj) (validate : bool) (cls : vcls)
    (* a Schema instance: .schema (PNone when absent), ._validate,
       .validator_cls *)
| PMeta (k : metakind) (schema : obj) (v : obj).
    (* a Meta* node: its .schema attribute and the built-in value it
       subclasses (children of a container are nodes again) *)

(** [get_origin] and [get_args] of typing. *)
Inductive origin_t := NoOrigin | OUnion | OUnionType | OClass (t : pytype).

Definition get_origin (o : obj) : origin_t :=
  match o with
  | PUnion false _ => OUnion
  | PUnion true _ => OUnionType
  | PGeneric t _ => OClass t
  | _ => NoOrigin
  end.

Definition get_args (o : obj) : list obj :=
  match o with
  | PUnion _ a => a
  | PGeneric _ a => a
  | _ => []
  end.

Definition origin_is (o : origin_t) (t : pytype) : bool :=
  match o with
  | OClass t' => pytype_eqb t' t
  | _ => false
  end.

(** [isinstance(x, type)]: is [x] a class? *)
Definition is_class (o : obj) : bool :=
  match o with
  | PType _ => true
  | _ => false
  end.

(** [isinstance(x, t)] for a built-in class [t].  MetaBool subclasses int
    (not bool) and MetaNone subclasses none of the built-ins. *)
Definition metakind_base (k : metakind) : option pytype :=
  match k with
  | MetaBool => Some t_int
  | MetaInt => Some t_int
  | MetaFloat => Some t_float
  | MetaStr => Some t_str
  | MetaDict => Some t_dict
  | MetaList => Some t_list
  | MetaTuple => Some t_tuple
  | MetaSet => Some t_set
  | MetaNone => None
  end.

Definition subclass (a b : pytype) : bool :=
  pytype_eqb a b || (pytype_eqb a t_bool && pytype_eqb b t_int).

Definition isinstance_of (x : obj) (t : pytype) : bool :=
  match x with
  | PNone => pytype_eqb t t_NoneType
  | PBool _ => subclass t_bool t
  | PInt _ => pytype_eqb t t_int
  | PFloat _ => pytype_eqb t t_float
  | PStr _ => pytype_eqb t t_str
  | PList _ => pytype_eqb t t_list
  | PTuple _ => pytype_eqb t t_tuple
  | PSet _ => pytype_eqb t t_set
  | PDict _ => pytype_eqb t t_dict
  | PMeta k _ _ =>
      match metakind_base k with
      | Some b => pytype_eqb b t
      | None => false
      end
  | _ => false
  end.

(** [isinstance(x, c)] for an arbitrary second argument: anything but a
    class raises TypeError. *)
Definition isinstance (x c : obj) : res bool :=
  match c with
  | PType t => Ok (isinstance_of x t)
  | _ => Raise (TypeError BadIsinstanceArg)
  end.

(** [isinstance(x, MetaNodeMixin)] *)
Definition is_meta (x : obj) : bool :=
  match x with
  | PMeta _ _ _ => true
  | _ => false
  end.

(** [any(isinstance(x, t) for t in ts)]: stops at the first hit. *)
Fixpoint any_isinstance (x : obj) (ts : list obj) : res bool :=
  match ts with
  | [] => Ok false
  | t :: ts' =>
      b <- isinstance x t ;;
      if b then Ok true else any_isinstance x ts'
  end.

(** [all(isinstance(t, type) for t in ts)] *)
Definition all_classes (ts : list obj) : bool := forallb is_class ts.

(** ** Truth value, equality and hashing *)

Definition is_empty_str (s : string) : bool :=
  match s with
  | EmptyString => true
  | _ => false
  end.

Definition is_nil {A} (l : list A) : bool :=
  match l with
  | [] => true
  | _ => false
  end.

Definition Q_is_zero (q : Q) : bool := Qeq_bool q 0%Q.

(** [bool(x)].  A MetaBool is true when its integer is 1, a MetaNone never;
    the other nodes inherit the test of the built-in they subclass. *)
Definition truthy_plain (x : obj) : bool :=
  match x with
  | PNone => false
  | PBool b => b
  | PInt z => negb (z =? 0)
  | PFloat q => negb (Q_is_zero q)
  | PStr s => negb (is_empty_str s)
  | PList l | PTuple l | PSet l => negb (is_nil l)
  | PDict l => negb (is_nil l)
  | _ => true
  end.

Definition truthy (x : obj) : bool :=
  match x with
  | PMeta MetaNone _ _ => false
  | PMeta MetaBool _ (PInt z) => z =? 1
  | PMeta _ _ v => truthy_plain v
  | _ => truthy_plain x
  end.

(** The number a bool, int or float stands for in a comparison. *)
Definition num_of (x : obj) : option Q :=
  match x with
  | PBool b => Some (if b then 1%Q else 0%Q)
  | PInt z => Some (inject_Z z)
  | PFloat q => Some q
  | _ => None
  end.

(** [strip] removes the container and scalar node wrappers below the top,
    keeping MetaBool and MetaNone nodes, whose [__eq__] is their own. *)
Fixpoint strip (x : obj) : obj :=
  match x with
  | PMeta MetaBool s v => PMeta MetaBool PNone v
  | PMeta MetaNone s v => PMeta MetaNone PNone PNone
  | PMeta _ _ v => strip v
  | PList l => PList (map strip l)
  | PTuple l => PTuple (map strip l)
  | PSet l => PSet (map strip l)
  | PDict l => PDict (map (fun kv => (strip (fst kv), strip (snd kv))) l)
  | _ => x
  end.

(** [x == y], the second operand already stripped.  Numbers compare by
    value across bool, int and float; sets and dicts compare as sets and
    maps; a MetaBool compares truth values with anything, a MetaNone equals
    None and MetaNone only. *)
Fixpoint eqv (x y : obj) {struct x} : bool :=
  match x, y with
  | PMeta MetaBool _ _, _ => Bool.eqb (truthy x) (truthy y)
  | _, PMeta MetaBool _ _ => Bool.eqb (truthy x) (truthy y)
  | PMeta MetaNone _ _, (PNone | PMeta MetaNone _ _) => true
  | PMeta MetaNone _ _, _ => false
  | PNone, PMeta MetaNone _ _ => true
  | PMeta _ _ v, _ => eqv v y
  | PNone, PNone => true
  | (PBool _ | PInt _ | PFloat _), (PBool _ | PInt _ | PFloat _) =>
      match num_of x, num_of y with
      | Some a, Some b => Qeq_bool a b
      | _, _ => false
      end
  | PStr a, PStr b => String.eqb a b
  | PList a, PList b =>
      (fix go (a b : list obj) {struct a} : bool :=
         match a, b with
         | [], [] => true
         | x :: a', y :: b' => eqv x y && go a' b'
         | _, _ => false
         end) a b
  | PTuple a, PTuple b =>
      (fix go (a b : list obj) {struct a} : bool :=
         match a, b with
         | [], [] => true
         | x :: a', y :: b' => eqv x y && go a' b'
         | _, _ => false
         end) a b
  | PSet a, PSet b =>
      (Nat.eqb (List.length a) (List.length b)) &&
      (fix go (a : list obj) : bool :=
         match a with
         | [] => true
         | x :: a' => existsb (eqv x) b && go a'
         end) a
  | PDict a, PDict b =>
      (Nat.eqb (List.length a) (List.length b)) &&
      (fix go (a : list (obj * obj)) : bool :=
         match a with
         | [] => true
         | (k, v) :: a' =>
             existsb (fun kv => eqv k (fst kv) && eqv v (snd kv)) b && go a'
         end) a
  | PEllipsis, PEllipsis => true
  | PType a, PType b => pytype_eqb a b
  | PAny, PAny => true
  | PUnion _ a, PUnion _ b =>
      (fix go (a : list obj) : bool :=
         match a with
         | [] => true
         | x :: a' => existsb (eqv x) b && go a'
         end) a &&
      (Nat.eqb (List.length a) (List.length b))
  | PGeneric o a, PGeneric o' b =>
      pytype_eqb o o' &&
      (fix go (a b : list obj) {struct a} : bool :=
         match a, b with
         | [], [] => true
         | x :: a', y :: b' => eqv x y && go a' b'
         | _, _ => false
         end) a b
  | PSchema s v c, PSchema s' v' c' =>
      eqv s s' && Bool.eqb v v' &&
      match c, c' with
      | SchemaValidatorCls, SchemaValidatorCls => true
      | NoOpValidatorCls, NoOpValidatorCls => true
      | _, _ => false
      end
  | _, _ => false
  end.

(** [x == y] *)
Definition py_eq (x y : obj) : bool := eqv x (strip y).

(** Can [hash(x)] be taken?  Lists, dicts and sets cannot; the container
    nodes and MetaNone define [__hash__] to return [to_native()] resp. None,
    which is no integer, so hashing them raises as well. *)
Fixpoint hashable (x : obj) : bool :=
  match x with
  | PList _ | PSet _ | PDict _ => false
  | PTuple l => forallb hashable l
  | PUnion _ a => forallb hashable a
  | PGeneric _ a => forallb hashable a
  | PMeta (MetaBool | MetaInt | MetaFloat | MetaStr) _ _ => true
  | PMeta _ _ _ => false
  | _ => true
  end.

(** ** Dicts and sets *)

Definition dict := list (obj * obj).

Fixpoint dict_get (k : obj) (d : dict) : option obj :=
  match d with
  | [] => None
  | (k', v) :: d' => if py_eq k' k then Some v else dict_get k d'
  end.

(** [d[k] = v]: an existing entry keeps its key and its place. *)
Fixpoint dict_set (k v : obj) (d : dict) : dict :=
  match d with
  | [] => [(k, v)]
  | (k', v') :: d' =>
      if py_eq k' k then (k', v) :: d' else (k', v') :: dict_set k v d'
  end.

(** [k in d] for a built-in dict, which hashes [k] first. *)
Definition dict_contains (k : obj) (d : dict) : res bool :=
  if hashable k then
    Ok (match dict_get k d with Some _ => true | None => false end)
  else Raise (TypeError Unhashable).

(** [d[k] = v] with the hash check of the interpreter. *)
Definition dict_store (k v : obj) (d : dict) : res dict :=
  if hashable k then Ok (dict_set k v d) else Raise (TypeError Unhashable).

(** [dict(items)] / a dict comprehension over [items]. *)
Fixpoint dict_of_items (items : list (obj * obj)) (acc : dict) : res dict :=
  match items with
  | [] => Ok acc
  | (k, v) :: r => acc' <- dict_store k v acc ;; dict_of_items r acc'
  end.

Definition set_mem (x : obj) (s : list obj) : bool := existsb (fun y => py_eq y x) s.

(** [s.add(x)] for a built-in set. *)
Definition set_add (x : obj) (s : list obj) : res (list obj) :=
  if hashable x then Ok (if set_mem x s then s else s ++ [x])
  else Raise (TypeError Unhashable).

(** [set(items)] / a set comprehension over [items]. *)
Fixpoint set_of_items (items : list obj) (acc : list obj) : res (list obj) :=
  match items with
  | [] => Ok acc
  | x :: r => acc' <- set_add x acc ;; set_of_items r acc'
  end.

(** ** Interpreter helpers: indexing, names, sorting *)

(** [l[i]] for a list or tuple: negative indices count from the end. *)
Definition py_index (l : list obj) (i : Z) : res obj :=
  let n := Z.of_nat (List.length l) in
  let j := if i <? 0 then i + n else i in
  if (0 <=? j) && (j <? n) then
    match nth_error l (Z.to_nat j) with
    | Some x => Ok x
    | None => Raise IndexError
    end
  else Raise IndexError.

(** The integer an int-like object is used as when it indexes. *)
Definition int_value (x : obj) : option Z :=
  match x with
  | PBool b => Some (if b then 1 else 0)
  | PInt z => Some z
  | PMeta (MetaInt | MetaBool) _ (PInt z) => Some z
  | _ => None
  end.

Definition is_NoneType (x : obj) : bool :=
  match x with
  | PType t_NoneType => true
  | _ => false
  end.

Definition is_Ellipsis (x : obj) : bool :=
  match x with
  | PEllipsis => true
  | _ => false
  end.

Definition is_PNone (x : obj) : bool :=
  match x with
  | PNone => true
  | _ => false
  end.

Definition is_PAny (x : obj) : bool :=
  match x with
  | PAny => true
  | _ => false
  end.

(** [x.__name__]: classes and typing.Any have one, data has none. *)
Definition name_of (x : obj) : res string :=
  match x with
  | PType t => Ok (type_name t)
  | PAny => Ok "Any"
  | PUnion _ _ | PGeneric _ _ => Raise Unmodelled
  | _ => Raise AttributeError
  end.

Definition decimal_digit (d : Z) : ascii := ascii_of_nat (48 + Z.to_nat d).

Fixpoint decimal_pos (fuel : nat) (z : Z) (acc : string) : string :=
  match fuel with
  | O => acc
  | S f =>
      let acc' := String (decimal_digit (z mod 10)) acc in
      if z <? 10 then acc' else decimal_pos f (z / 10) acc'
  end.

(** [str(z)] for an int. *)
Definition str_of_Z (z : Z) : string :=
  if z <? 0 then String "-" (decimal_pos (S (Z.to_nat (Z.log2 (- z)))) (- z) "")
  else decimal_pos (S (Z.to_nat (Z.log2 z))) z "".

(** [str(x)], for the objects whose text the model spells out. *)
Definition str_of (x : obj) : res string :=
  match x with
  | PNone => Ok "None"
  | PBool true => Ok "True"
  | PBool false => Ok "False"
  | PInt z => Ok (str_of_Z z)
  | PStr s => Ok s
  | PType t => Ok ("<class '" ++ type_name t ++ "'>")%string
  | PAny => Ok "typing.Any"
  | PEllipsis => Ok "Ellipsis"
  | _ => Raise Unmodelled
  end.

(** Comparison of str values: lexicographic by code point. *)
Fixpoint str_ltb (a b : string) : bool :=
  match a, b with
  | EmptyString, EmptyString => false
  | EmptyString, String _ _ => true
  | String _ _, EmptyString => false
  | String c a', String d b' =>
      let m := nat_of_ascii c in
      let n := nat_of_ascii d in
      if Nat.ltb m n then true
      else if Nat.ltb n m then false
      else str_ltb a' b'
  end.

(** Stable insertion into a list sorted by key. *)
Fixpoint insert_by_key (k : string) (x : obj) (l : list (string * obj))
  : list (string * obj) :=
  match l with
  | [] => [(k, x)]
  | (k', y) :: l' =>
      if str_ltb k k' then (k, x) :: l
      else (k', y) :: insert_by_key k x l'
  end.

(** [sorted(xs, key=key)]: the keys are all computed first. *)
Definition sorted_by (key : obj -> res string) (xs : list obj) : res (list obj) :=
  ks <- mapM (fun x => k <- key x ;; Ok (k, x)) xs ;;
  Ok (map snd (fold_left (fun acc kx => insert_by_key (fst kx) (snd kx) acc) ks [])).

(** ** schema.py: class Schema *)

Module Schema.

(** [Schema._normalize_schema] *)
Fixpoint _normalize_schema (schema : obj) : res obj :=
  match schema with
  | PUnion _ args =>
      (* {self._normalize_schema(arg) for arg in args
                                       if arg is not type(None)} *)
      s <- (fix go (l acc : list obj) {struct l} : res (list obj) :=
              match l with
              | [] => Ok acc
              | a :: r =>
                  if is_NoneType a then go r acc
                  else n <- _normalize_schema a ;;
                       acc' <- set_add n acc ;;
                       go r acc'
              end) args [] ;;
      Ok (PSet s)
  | PGeneric t_dict args =>
      nkv <- match args with
             | [key_type; val_type] =>
                 nk <- _normalize_schema key_type ;;
                 nv <- _normalize_schema val_type ;;
                 Ok (nk, nv)
             | _ => Ok (PAny, PAny)
             end ;;
      let '(norm_key, norm_val) := nkv in
      key_tuple <- match norm_key with
                   | PSet members => l <- sorted_by name_of members ;; Ok (PTuple l)
                   | _ => Ok norm_key
                   end ;;
      d <- dict_store key_tuple norm_val [] ;;
      Ok (PDict d)
  | PGeneric t_list args =>
      item <- match args with
              | item_type :: _ => _normalize_schema item_type
              | [] => Ok PAny
              end ;;
      Ok (PList [item])
  | PGeneric t_set args =>
      item <- match args with
              | item_type :: _ => _normalize_schema item_type
              | [] => Ok PAny
              end ;;
      s <- set_add item [] ;;
      Ok (PSet s)
  | PGeneric t_tuple args =>
      if is_Ellipsis (last args PNone) then
        match args with
        | a0 :: _ => n <- _normalize_schema a0 ;; Ok (PTuple [n; PEllipsis])
        | [] => Ok (PTuple [])
        end
      else
        l <- (fix go (l : list obj) : res (list obj) :=
                match l with
                | [] => Ok []
                | a :: r => n <- _normalize_schema a ;; ns <- go r ;; Ok (n :: ns)
                end) args ;;
        Ok (PTuple l)
  | PDict items =>
      out <- (fix go (l : list (obj * obj)) (out : dict) {struct l} : res dict :=
                match l with
                | [] => Ok out
                | (k, v) :: r =>
                    nk <- _normalize_schema k ;;
                    norm_key <- match nk with
                                | PSet members =>
                                    l <- sorted_by str_of members ;; Ok (PTuple l)
                                | _ => Ok nk
                                end ;;
                    nv <- _normalize_schema v ;;
                    key <- match norm_key with
                           | PTuple (_ :: _ :: _) => Ok norm_key
                           | PTuple (x :: _) => Ok x
                           | PTuple [] => Raise IndexError
                           | _ => Ok norm_key
                           end ;;
                    out' <- dict_store key nv out ;;
                    go r out'
                end) items [] ;;
      Ok (PDict out)
  | _ => Ok schema
  end.

(** [isinstance(schema, (dict, list, tuple, set, bool, str, int))]: the
    default of [_validate] when no [validate] keyword is passed. *)
Definition default_validate (schema : obj) : bool :=
  isinstance_of schema t_dict || isinstance_of schema t_list ||
  isinstance_of schema t_tuple || isinstance_of schema t_set ||
  isinstance_of schema t_bool || isinstance_of schema t_str ||
  isinstance_of schema t_int.

(** [Schema.__init__(raw_schema, validator_cls=.., **kwargs)]; [validate]
    is the keyword of that name, when given. *)
Definition __init__ (raw_schema : obj) (validator_cls : vcls)
  (validate : option bool) : res obj :=
  schema <- (if truthy raw_schema then _normalize_schema raw_schema else Ok PNone) ;;
  let cls := if truthy schema then validator_cls else NoOpValidatorCls in
  let v := match validate with
           | Some b => b
           | None => default_validate schema
           end in
  Ok (PSchema schema v cls).

(** [Schema(raw_schema)] with the defaults. *)
Definition new (raw_schema : obj) : res obj :=
  __init__ raw_schema SchemaValidatorCls None.

(** [Schema.ensure(value)] *)
Definition ensure (value : obj) : res obj :=
  match value with
  | PSchema _ _ _ => Ok value
  | _ => new value
  end.

(** The type-pattern loop of [resolve_from] over [schema.items()]. *)
Fixpoint resolve_by_type (key : obj) (items : dict) : res obj :=
  match items with
  | [] => Ok PNone
  | (k_type, v_type) :: r =>
      match k_type with
      | PTuple ts =>
          b <- any_isinstance key ts ;;
          if b then Ok v_type else resolve_by_type key r
      | PType t =>
          if isinstance_of key t then Ok v_type else resolve_by_type key r
      | _ => resolve_by_type key r
      end
  end.

(** The part of [resolve_from] that computes [sub_schema_raw], before the
    fallback to Any. *)
Definition sub_schema_raw (schema key : obj) (level : Z) : res obj :=
  match schema with
  | PDict items =>
      b <- dict_contains key items ;;
      if b then
        match dict_get key items with
        | Some v => Ok v
        | None => Raise KeyError
        end
      else resolve_by_type key items
  | PList l | PSet l =>
      match int_value key with
      | Some i =>
          match py_index l i with
          | Ok x => Ok x
          | Raise IndexError => Ok PNone
          | Raise e => Raise e
          end
      | None => Ok PNone
      end
  | PTuple l =>
      last_ <- py_index l (-1) ;;
      if is_Ellipsis last_ then py_index l 0
      else if (0 <=? level) && (level <? Z.of_nat (List.length l))
           then py_index l level
           else Ok PNone
  | _ => Ok PNone
  end.

(** [Schema.resolve_from(key, value, level)] on the instance [self]. *)
Definition resolve_from (self key value : obj) (level : Z) : res obj :=
  match self with
  | PSchema schema validate cls =>
      raw <- sub_schema_raw schema key level ;;
      let raw := if is_PNone raw then PAny else raw in
      match raw with
      | PSchema _ _ _ => Ok raw
      | _ => __init__ raw cls (Some validate)
      end
  | _ => Raise AttributeError
  end.

(** [Schema.__call__(data, key=None, level=0)] *)
Definition __call__ (self data : obj) : res obj :=
  resolve_from self PNone data 0.

(** [Schema.coerce_key]: [get_origin(self.schema)] is dict only for a
    typing Dict[K, V], whose [key_type] is then called on the key. *)
Definition coerce_key (call : obj -> obj -> res obj) (self key : obj) : res obj :=
  match self with
  | PSchema (PGeneric t_dict [key_type; _]) _ _ =>
      match call key_type key with
      | Raise ValueError | Raise (TypeError _) => Ok key
      | r => r
      end
  | _ => Ok key
  end.

End Schema.

(** ** Interpreter helpers: iteration and the constructors of the built-ins *)

Fixpoint chars_of (s : string) : list obj :=
  match s with
  | EmptyString => []
  | String c r => PStr (String c EmptyString) :: chars_of r
  end.

(** [iter(x)]: the elements a for loop over [x] visits. *)
Definition iter_items (x : obj) : res (list obj) :=
  let plain v :=
    match v with
    | PList l | PTuple l | PSet l => Ok l
    | PDict d => Ok (map fst d)
    | PStr s => Ok (chars_of s)
    | _ => Raise (TypeError NotIterable)
    end in
  match x with
  | PMeta (MetaDict | MetaList | MetaTuple | MetaSet | MetaStr) _ v => plain v
  | PMeta _ _ _ => Raise (TypeError NotIterable)
  | _ => plain x
  end.

(** [x.items()]: only dicts (and dict nodes) have the attribute. *)
Definition dict_items (x : obj) : res dict :=
  match x with
  | PDict d => Ok d
  | PMeta MetaDict _ (PDict d) => Ok d
  | _ => Raise AttributeError
  end.

Definition is_ws (c : ascii) : bool :=
  let n := nat_of_ascii c in
  (Nat.eqb n 32 || ((Nat.leb 9 n) && (Nat.leb n 13)))%bool.

Fixpoint lstrip (s : string) : string :=
  match s with
  | String c r => if is_ws c then lstrip r else s
  | EmptyString => s
  end.

Fixpoint rev_string (s acc : string) : string :=
  match s with
  | EmptyString => acc
  | String c r => rev_string r (String c acc)
  end.

Definition strip_ws (s : string) : string :=
  rev_string (lstrip (rev_string (lstrip s) "")) "".

Definition digit_of (c : ascii) : option Z :=
  let n := nat_of_ascii c in
  if (Nat.leb 48 n && Nat.leb n 57)%bool then Some (Z.of_nat n - 48) else None.

(** Digits with single underscores between them, as int() reads them. *)
Fixpoint parse_digits (s : string) (acc : Z) (after_digit : bool) : option Z :=
  match s with
  | EmptyString => if after_digit then Some acc else None
  | String c r =>
      match digit_of c with
      | Some d => parse_digits r (10 * acc + d) true
      | None =>
          if (Nat.eqb (nat_of_ascii c) 95 && after_digit)%bool
          then parse_digits r acc false
          else None
      end
  end.

(** [int(s)] for a str, base 10. *)
Definition int_of_string (s : string) : option Z :=
  match strip_ws s with
  | String "-" r => option_map Z.opp (parse_digits r 0 false)
  | String "+" r => parse_digits r 0 false
  | r => parse_digits r 0 false
  end.

Fixpoint has_digit (s : string) : bool :=
  match s with
  | EmptyString => false
  | String c r =>
      match digit_of c with
      | Some _ => true
      | None => has_digit r
      end
  end.

Definition lower (c : ascii) : ascii :=
  let n := nat_of_ascii c in
  if (Nat.leb 65 n && Nat.leb n 90)%bool then ascii_of_nat (n + 32) else c.

Fixpoint lower_string (s : string) : string :=
  match s with
  | EmptyString => s
  | String c r => String (lower c) (lower_string r)
  end.

(** [float(s)] for a str: texts made of digits only are read exactly; a
    text without any digit that does not spell inf or nan is a ValueError;
    every other spelling is left out of the model. *)
Definition float_of_string (s : string) : res Q :=
  let t := strip_ws s in
  let body := match t with
              | String "-" r => r
              | String "+" r => r
              | r => r
              end in
  let neg := match t with String "-" _ => true | _ => false end in
  match parse_digits body 0 false with
  | Some z =>
      if has_digit body && negb (existsb (fun c => Nat.eqb (nat_of_ascii c) 95)
                                   (list_ascii_of_string body))
      then Ok (inject_Z (if neg then - z else z))
      else Raise Unmodelled
  | None =>
      if has_digit body then Raise Unmodelled
      else
        let l := lower_string body in
        if String.eqb l "inf" || String.eqb l "infinity" || String.eqb l "nan"
        then Raise Unmodelled
        else Raise ValueError
  end.

(** [int(q)] for a float: truncation towards zero. *)
Definition Q_trunc (q : Q) : Z := Z.quot (Qnum q) (Zpos (Qden q)).

(** [cls(x)]: calling one of the built-in classes on one argument. *)
Definition call_class (t : pytype) (x : obj) : res obj :=
  let payload := match x with
                 | PMeta MetaBool _ (PInt z) => PBool (z =? 1)
                 | PMeta MetaNone _ _ => x
                 | PMeta _ _ v => v
                 | _ => x
                 end in
  match t with
  | t_int =>
      match payload with
      | PBool b => Ok (PInt (if b then 1 else 0))
      | PInt z => Ok (PInt z)
      | PFloat q => Ok (PInt (Q_trunc q))
      | PStr s =>
          match int_of_string s with
          | Some z => Ok (PInt z)
          | None => Raise ValueError
          end
      | _ => Raise (TypeError BadArguments)
      end
  | t_float =>
      match payload with
      | PBool b => Ok (PFloat (if b then 1%Q else 0%Q))
      | PInt z => Ok (PFloat (inject_Z z))
      | PFloat q => Ok (PFloat q)
      | PStr s => q <- float_of_string s ;; Ok (PFloat q)
      | _ => Raise (TypeError BadArguments)
      end
  | t_str => s <- str_of payload ;; Ok (PStr s)
  | t_bool => Ok (PBool (truthy x))
  | t_list => l <- iter_items x ;; Ok (PList l)
  | t_tuple => l <- iter_items x ;; Ok (PTuple l)
  | t_set => l <- iter_items x ;; s <- set_of_items l [] ;; Ok (PSet s)
  | t_dict =>
      match payload with
      | PDict d => Ok (PDict d)
      | _ => Raise Unmodelled
      end
  | t_NoneType => Raise (TypeError BadArguments)
  end.

(** [f(x)] for an arbitrary callee: typing.Any, the typing generics and
    unions refuse to be instantiated, data is not callable. *)
Definition py_call (f x : obj) : res obj :=
  match f with
  | PType t => call_class t x
  | PAny | PUnion _ _ | PGeneric _ _ => Raise (TypeError BadArguments)
  | PSchema _ _ _ | PMeta _ _ _ => Raise Unmodelled
  | _ => Raise (TypeError NotCallable)
  end.

(** [cls()] *)
Definition class_default (t : pytype) : obj :=
  match t with
  | t_bool => PBool false
  | t_int => PInt 0
  | t_float => PFloat 0%Q
  | t_str => PStr ""
  | t_dict => PDict []
  | t_list => PList []
  | t_tuple => PTuple []
  | t_set => PSet []
  | t_NoneType => PNone
  end.

(** [f()] *)
Definition py_call0 (f : obj) : res obj :=
  match f with
  | PType t => Ok (class_default t)
  | PAny | PUnion _ _ | PGeneric _ _ => Raise (TypeError BadArguments)
  | PSchema _ _ _ | PMeta _ _ _ => Raise Unmodelled
  | _ => Raise (TypeError NotCallable)
  end.

(** ** to_native *)

(** [x.to_native() if hasattr(x, "to_native") else x]: MetaContainer.to_native,
    MetaScalar.to_native, MetaBool.to_native and MetaNone.to_native; an
    object that is no node is returned as it is. *)
Fixpoint to_native (x : obj) : res obj :=
  match x with
  | PMeta MetaNone _ _ => Ok PNone
  | PMeta MetaBool _ (PInt z) => Ok (PBool (z =? 1))
  | PMeta MetaInt _ (PInt z) => Ok (PInt z)
  | PMeta MetaFloat _ (PFloat q) => Ok (PFloat q)
  | PMeta MetaStr _ (PStr s) => Ok (PStr s)
  | PMeta MetaDict _ (PDict items) =>
      kvs <- (fix go (l : list (obj * obj)) : res (list (obj * obj)) :=
                match l with
                | [] => Ok []
                | (k, v) :: r =>
                    k' <- to_native k ;;
                    v' <- to_native v ;;
                    r' <- go r ;;
                    Ok ((k', v') :: r')
                end) items ;;
      d <- dict_of_items kvs [] ;;
      Ok (PDict d)
  | PMeta MetaSet _ (PSet l) =>
      l' <- (fix go (l : list obj) : res (list obj) :=
               match l with
               | [] => Ok []
               | v :: r => v' <- to_native v ;; r' <- go r ;; Ok (v' :: r')
               end) l ;;
      s <- set_of_items l' [] ;;
      Ok (PSet s)
  | PMeta MetaList _ (PList l) =>
      l' <- (fix go (l : list obj) : res (list obj) :=
               match l with
               | [] => Ok []
               | v :: r => v' <- to_native v ;; r' <- go r ;; Ok (v' :: r')
               end) l ;;
      Ok (PList l')
  | PMeta MetaTuple _ (PTuple l) =>
      l' <- (fix go (l : list obj) : res (list obj) :=
               match l with
               | [] => Ok []
               | v :: r => v' <- to_native v ;; r' <- go r ;; Ok (v' :: r')
               end) l ;;
      Ok (PTuple l')
  | PMeta _ _ _ => Raise Unmodelled
  | _ => Ok x
  end.

(** ** helpers.py *)

(** The class a validator is given as [MetaNode_mixin]: MetaNodeMixin
    itself, or MetaBool (what MetaBool.__new__ passes). *)
Inductive mixin := MetaNodeMixin | MixinMetaBool.

Definition isinstance_mixin (m : mixin) (x : obj) : bool :=
  match m, x with
  | MetaNodeMixin, PMeta _ _ _ => true
  | MixinMetaBool, PMeta MetaBool _ _ => true
  | _, _ => false
  end.

Module helpers.

(** [all(f(v) for v in l)] and [any(f(v) for v in l)], lazily. *)
Fixpoint allM {A} (f : A -> res bool) (l : list A) : res bool :=
  match l with
  | [] => Ok true
  | a :: r => b <- f a ;; if b then allM f r else Ok false
  end.

Fixpoint anyM {A} (f : A -> res bool) (l : list A) : res bool :=
  match l with
  | [] => Ok false
  | a :: r => b <- f a ;; if b then Ok true else anyM f r
  end.

(** [zip(a, b)] *)
Fixpoint zip {A B} (a : list A) (b : list B) : list (A * B) :=
  match a, b with
  | x :: a', y :: b' => (x, y) :: zip a' b'
  | _, _ => []
  end.

(** [is_type_match(value, expected_type, base_class)] *)
Fixpoint is_type_match (m : mixin) (expected_type value : obj) {struct expected_type}
  : res bool :=
  value <- (if isinstance_mixin m value then to_native value else Ok value) ;;
  match expected_type with
  | PUnion false args =>
      (fix any_arg (l : list obj) : res bool :=
         match l with
         | [] => Ok false
         | t :: r =>
             b <- is_type_match m t value ;;
             if b then Ok true else any_arg r
         end) args
  | PGeneric t_list args =>
      if negb (isinstance_of value t_list) then Ok false
      else
        match args with
        | [] => Ok true   (* item_type is Any: every item matches *)
        | [item_type] =>
            items <- iter_items value ;;
            allM (is_type_match m item_type) items
        | _ => Raise ValueError
        end
  | PGeneric t_set args =>
      if negb (isinstance_of value t_set) then Ok false
      else
        match args with
        | [] => Ok true
        | [item_type] =>
            items <- iter_items value ;;
            allM (is_type_match m item_type) items
        | _ => Raise ValueError
        end
  | PGeneric t_dict args =>
      if negb (isinstance_of value t_dict) then Ok false
      else
        match args with
        | [key_type; val_type] =>
            items <- dict_items value ;;
            allM (fun kv =>
                    b <- is_type_match m key_type (fst kv) ;;
                    if b then is_type_match m val_type (snd kv) else Ok false)
                 items
        | _ => Ok true   (* (Any, Any) *)
        end
  | PGeneric t_tuple args =>
      if negb (isinstance_of value t_tuple) then Ok false
      else
        items <- iter_items value ;;
        if is_Ellipsis (last args PNone) then
          match args with
          | item_type :: _ => allM (is_type_match m item_type) items
          | [] => Ok true
          end
        else if negb (Nat.eqb (List.length args) (List.length items)) then Ok false
        else
          (fix all_zip (ts vs : list obj) {struct ts} : res bool :=
             match ts, vs with
             | t :: ts', v :: vs' =>
                 b <- is_type_match m t v ;;
                 if b then all_zip ts' vs' else Ok false
             | _, _ => Ok true
             end) args items
  | PType t => Ok (isinstance_of value t)
  | _ => Ok true
  end.

(** [resolve_schema_key(key, schema)] *)
Fixpoint resolve_key_by_type (key : obj) (items : dict) : obj :=
  match items with
  | [] => PNone
  | (PType t, v_type) :: r =>
      if isinstance_of key t then v_type else resolve_key_by_type key r
  | _ :: r => resolve_key_by_type key r
  end.

Definition resolve_schema_key (key schema : obj) : res obj :=
  match schema with
  | PNone => Ok PNone
  | PGeneric t_dict [_; value_type] => Ok value_type
  | PDict items =>
      b <- dict_contains key items ;;
      if b then
        match dict_get key items with
        | Some v => Ok v
        | None => Raise KeyError
        end
      else Ok (resolve_key_by_type key items)
  | _ => Ok PNone
  end.

(** [tp in (int, float, str, bool)] *)
Definition is_scalar_class (tp : obj) : bool :=
  match tp with
  | PType (t_int | t_float | t_str | t_bool) => true
  | _ => false
  end.

(** [get_default_from_type(tp)].  The first test returns for every tuple,
    so the two later tuple cases of the source are never reached. *)
Fixpoint get_default_from_type (tp : obj) : res obj :=
  match tp with
  | PTuple [] => Raise IndexError
  | PTuple (t0 :: _) => get_default_from_type t0
  | PSet _ => Ok (PSet [])
  | PList _ => Ok (PList [])
  | PDict _ => Ok (PDict [])
  | _ =>
      if is_scalar_class tp then py_call0 tp
      else if is_PNone tp || is_NoneType tp then Ok PNone
      else catch_Exception (py_call0 tp) (Ok PNone)
  end.

(** [coerce_key_to_type(key, key_type)] *)
Definition coerce_key_to_type (key key_type : obj) : res obj :=
  catch_Exception (py_call key_type key) (Ok key).

(** One round of the [for sk, sv in schema.items()] loop of the explicit
    branch of [normalize_data]: [st] is (coerced_key, value normalised
    under matched_schema); the result says whether the loop breaks. *)
Definition try_types (k : obj) (ts : list obj) : res (option obj) :=
  (fix go (l : list obj) : res (option obj) :=
     match l with
     | [] => Ok None
     | t :: r =>
         match (coerced <- coerce_key_to_type k t ;;
                b <- isinstance coerced t ;;
                Ok (coerced, b)) with
         | Ok (coerced, true) => Ok (Some coerced)
         | Ok (_, false) => go r
         | Raise e => catch_Exception (Raise e) (go r)
         end
     end) ts.

(** [normalize_data(data, schema)] *)
Fixpoint normalize_data (schema data : obj) {struct schema} : res obj :=
  let fallthrough :=
    match schema with
    | PType t => catch_Exception (py_call schema data) (Ok data)
    | _ => Ok data
    end in
  match schema with
  | PGeneric t_dict args =>
      if isinstance_of data t_dict then
        items <- dict_items data ;;
        out <- (fix go (l : dict) (out : dict) {struct l} : res dict :=
                  match l with
                  | [] => Ok out
                  | (k, v) :: r =>
                      kv <- match args with
                            | [key_type; val_type] =>
                                ck <- coerce_key_to_type k key_type ;;
                                nv <- normalize_data val_type v ;;
                                Ok (ck, nv)
                            | _ =>
                                ck <- coerce_key_to_type k PAny ;;
                                Ok (ck, v)
                            end ;;
                      out' <- dict_store (fst kv) (snd kv) out ;;
                      go r out'
                  end) items [] ;;
        Ok (PDict out)
      else Ok data
  | PGeneric t_set args =>
      if isinstance_of data t_list || isinstance_of data t_set then
        items <- iter_items data ;;
        l <- match args with
             | item_type :: _ => mapM (normalize_data item_type) items
             | [] => Ok items
             end ;;
        s <- set_of_items l [] ;;
        Ok (PSet s)
      else Raise (TypeError NormalizeExpected)
  | PGeneric t_list args =>
      if isinstance_of data t_list then
        items <- iter_items data ;;
        l <- match args with
             | item_type :: _ => mapM (normalize_data item_type) items
             | [] => Ok items
             end ;;
        Ok (PList l)
      else Raise (TypeError NormalizeExpected)
  | PGeneric t_tuple args =>
      if isinstance_of data t_list || isinstance_of data t_tuple then
        items <- iter_items data ;;
        if is_Ellipsis (last args PNone) then
          l <- match args with
               | item_type :: _ => mapM (normalize_data item_type) items
               | [] => Ok items
               end ;;
          Ok (PTuple l)
        else
          l <- (fix go (vs ts : list obj) {struct ts} : res (list obj) :=
                  match vs, ts with
                  | v :: vs', t :: ts' =>
                      n <- normalize_data t v ;; ns <- go vs' ts' ;; Ok (n :: ns)
                  | _, _ => Ok []
                  end) items args ;;
          Ok (PTuple l)
      else Raise (TypeError NormalizeExpected)
  | PDict sitems =>
      if isinstance_of data t_dict then
        items <- dict_items data ;;
        out <- (fix go (l : dict) (out : dict) {struct l} : res dict :=
                  match l with
                  | [] => Ok out
                  | (k, v) :: r =>
                      st <- (fix scan (sl : dict) (st : obj * res obj) {struct sl}
                               : res (obj * res obj) :=
                               match sl with
                               | [] => Ok st
                               | (sk, sv) :: sr =>
                                   if py_eq sk k then Ok (fst st, normalize_data sv v)
                                   else
                                     hit <- (if is_class sk then try_types k [sk]
                                             else Ok None) ;;
                                     match hit with
                                     | Some coerced => Ok (coerced, normalize_data sv v)
                                     | None =>
                                         match sk with
                                         | PTuple ts =>
                                             if all_classes ts then
                                               hit' <- try_types k ts ;;
                                               match hit' with
                                               | Some coerced =>
                                                   scan sr (coerced, normalize_data sv v)
                                               | None => scan sr st
                                               end
                                             else scan sr st
                                         | _ => scan sr st
                                         end
                                     end
                               end) sitems (k, Ok v) ;;
                      nv <- snd st ;;
                      out' <- dict_store (fst st) nv out ;;
                      go r out'
                  end) items [] ;;
        Ok (PDict out)
      else fallthrough
  | PSet [item_type] =>
      if isinstance_of data t_list || isinstance_of data t_set then
        items <- iter_items data ;;
        l <- mapM (normalize_data item_type) items ;;
        s <- set_of_items l [] ;;
        Ok (PSet s)
      else Raise (TypeError NormalizeExpected)
  | PList [item_type] =>
      if isinstance_of data t_list then
        items <- iter_items data ;;
        l <- mapM (normalize_data item_type) items ;;
        Ok (PList l)
      else Raise (TypeError NormalizeExpected)
  | PTuple ts =>
      items <- iter_items data ;;
      match ts with
      | [t0; PEllipsis] =>
          l <- mapM (normalize_data t0) items ;; Ok (PTuple l)
      | _ =>
          l <- (fix go (vs ts : list obj) {struct ts} : res (list obj) :=
                  match vs, ts with
                  | v :: vs', t :: ts' =>
                      n <- normalize_data t v ;; ns <- go vs' ts' ;; Ok (n :: ns)
                  | _, _ => Ok []
                  end) items ts ;;
          Ok (PTuple l)
      end
  | _ => fallthrough
  end.

End helpers.

(** ** schema_validator.py *)

(** [is_union(tp)] *)
Definition is_union (tp : obj) : bool :=
  match get_origin tp with
  | OUnion | OUnionType => true
  | _ => false
  end.

(** A validator object: NoOpValidator() or SchemaValidator(schema, mixin). *)
Inductive validator :=
| NoOpValidator
| SchemaValidator_ (schema : obj) (m : mixin).

Module SchemaValidator.

(** [type_check(value, expected_type, key_path)] *)
Fixpoint type_check (m : mixin) (expected_type value : obj) {struct expected_type}
  : res unit :=
  if is_PNone expected_type || is_PAny expected_type then Ok tt
  else
    value <- (if isinstance_mixin m value then to_native value else Ok value) ;;
    match expected_type with
    | PTuple ts =>
        b <- any_isinstance value ts ;;
        if b then Ok tt else Raise (TypeError ExpectedOneOf)
    | PSet [inner_type] =>
        if negb (isinstance_of value t_set) then Raise (TypeError ExpectedSet)
        else items <- iter_items value ;;
             forM_ (type_check m inner_type) items
    | PList [inner_type] =>
        if negb (isinstance_of value t_list) then Raise (TypeError ExpectedList)
        else items <- iter_items value ;;
             forM_ (type_check m inner_type) items
    | PDict [(key_type, val_type)] =>
        if negb (isinstance_of value t_dict) then Raise (TypeError ExpectedDict)
        else items <- dict_items value ;;
             forM_ (fun kv => type_check m key_type (fst kv) ;;;
                              type_check m val_type (snd kv)) items
    | _ =>
        b <- helpers.is_type_match m expected_type value ;;
        if b then Ok tt else Raise (TypeError ExpectedType)
    end.

(** The inner loop of [validate_all] over [expected_type.keys()]: does a
    declared key type accept the key [k]? *)
Fixpoint key_type_matches (k : obj) (allowed : list obj) : res bool :=
  match allowed with
  | [] => Ok false
  | PTuple ts :: r =>
      b <- any_isinstance k ts ;;
      if b then Ok true else key_type_matches k r
  | PType t :: r =>
      if isinstance_of k t then Ok true else key_type_matches k r
  | _ :: r => key_type_matches k r
  end.

(** The allowed-key loop of [validate_all] over the keys of the data. *)
Fixpoint check_keys (expected : dict) (keys : list obj) : res unit :=
  match keys with
  | [] => Ok tt
  | k :: r =>
      known <- dict_contains k expected ;;
      if known then check_keys expected r
      else
        matched <- key_type_matches k (map fst expected) ;;
        if matched then check_keys expected r
        else Raise (TypeError KeyNotAllowed)
  end.

(** [_extract_keyval_types(expected_type)] *)
Definition _extract_keyval_types (expected_type : obj) : obj * obj :=
  match expected_type with
  | PGeneric t_dict [k; v] => (k, v)
  | PUnion false args =>
      (fix go (l : list obj) : obj * obj :=
         match l with
         | [] => (PNone, PNone)
         | PGeneric t_dict [k; v] :: _ => (k, v)
         | _ :: r => go r
         end) args
  | _ => (PNone, PNone)
  end.

(** An empty container meets a branch of its own kind:
    [origin is dict and isinstance(value, dict) and not value], and the
    same for list and set. *)
Definition empty_container_match (arg value : obj) : bool :=
  let o := get_origin arg in
  (origin_is o t_dict && isinstance_of value t_dict && negb (truthy value)) ||
  (origin_is o t_list && isinstance_of value t_list && negb (truthy value)) ||
  (origin_is o t_set && isinstance_of value t_set && negb (truthy value)).

(** f"{key_path}[{i}]", f"{key_path}.{k}", f"{key_path}{{{item}}}": paths
    are only read by [resolve_schema_key], so they are built on demand. *)
Definition path := res obj.

Definition path_index (p : path) (i : nat) : path :=
  s <- bind p str_of ;;
  Ok (PStr (s ++ "[" ++ str_of_Z (Z.of_nat i) ++ "]")%string).

Definition path_dot (p : path) (k : obj) : path :=
  s <- bind p str_of ;; t <- str_of k ;;
  Ok (PStr (s ++ "." ++ t)%string).

Definition path_key (p : path) : path :=
  s <- bind p str_of ;; Ok (PStr (s ++ ".key")%string).

Definition path_brace (p : path) (k : obj) : path :=
  s <- bind p str_of ;; t <- str_of k ;;
  Ok (PStr (s ++ "{" ++ t ++ "}")%string).

(** [for i, x in enumerate(l): f i x] *)
Fixpoint for_enumerate (f : nat -> obj -> res unit) (i : nat) (l : list obj)
  : res unit :=
  match l with
  | [] => Ok tt
  | x :: r => f i x ;;; for_enumerate f (S i) r
  end.

(** The methods that follow value and schema together.  [self] is the
    validator's [schema]; every call of a method spends one unit of fuel. *)
Fixpoint validate_all (fuel : nat) (m : mixin) (self data : obj) {struct fuel}
  : res unit :=
  match fuel with
  | O => Raise OutOfFuel
  | S f =>
      if is_PNone self then Ok tt
      else
        let expected_type := self in
        (match expected_type with
         | PDict expected =>
             if isinstance_of data t_dict then
               keys <- iter_items data ;;
               check_keys expected keys
             else Ok tt
         | _ => Ok tt
         end) ;;;
        if isinstance_mixin m data
        then validate_recursive f m self (Ok (PStr "value")) data expected_type
             ;;; Ok tt
        else _validate_native f m self data expected_type
  end

with _validate_native (fuel : nat) (m : mixin) (self data expected_type : obj)
  {struct fuel} : res unit :=
  match fuel with
  | O => Raise OutOfFuel
  | S f =>
      expected_type <- (if is_union expected_type
                        then resolve_union_branch f m self data expected_type
                        else Ok expected_type) ;;
      match get_origin expected_type with
      | OClass t_dict =>
          match get_args expected_type with
          | [key_type; val_type] =>
              items <- dict_items data ;;
              forM_ (fun kv =>
                       type_check m key_type (fst kv) ;;;
                       _validate_native f m self (snd kv) val_type) items
          | _ => Raise ValueError
          end
      | OClass t_list | OClass t_set =>
          match get_args expected_type with
          | [item_type] =>
              items <- iter_items data ;;
              forM_ (fun item => _validate_native f m self item item_type) items
          | _ => Raise ValueError
          end
      | _ => type_check m expected_type data
      end
  end

with resolve_union_branch (fuel : nat) (m : mixin) (self value union_type : obj)
  {struct fuel} : res obj :=
  match fuel with
  | O => Raise OutOfFuel
  | S f =>
      if negb (is_union union_type) then Ok union_type
      else
        let args := get_args union_type in
        (* the attempt the first pass makes for every arg: the first
           curr_arg whose validate_all passes is returned *)
        let first_valid :=
          (fix go (l : list obj) : res (option obj) :=
             match l with
             | [] => Ok None
             | curr_arg :: r =>
                 match validate_all f m curr_arg value with
                 | Ok _ => Ok (Some curr_arg)
                 | Raise (TypeError _) => go r
                 | Raise e => Raise e
                 end
             end) args in
        let second_pass :=
          (fix go (l : list obj) : res obj :=
             match l with
             | [] => Raise (TypeError NoUnionMatch)
             | arg :: r =>
                 if empty_container_match arg value then Ok arg
                 else
                   match validate_all f m arg value with
                   | Ok _ => Ok arg
                   | Raise (TypeError _) => go r
                   | Raise e => Raise e
                   end
             end) args in
        (fix first_pass (l : list obj) : res obj :=
           match l with
           | [] => second_pass
           | arg :: r =>
               if empty_container_match arg value then Ok arg
               else
                 match first_valid with
                 | Ok (Some curr_arg) => Ok curr_arg
                 | Ok None =>
                     match type_check m arg value with
                     | Ok _ => first_pass r
                     | Raise (TypeError _) => first_pass r
                     | Raise e => Raise e
                     end
                 | Raise e => Raise e
                 end
           end) args
  end

with validate_recursive (fuel : nat) (m : mixin) (self : obj) (key_path : path)
  (value expected_type : obj) {struct fuel} : res obj :=
  match fuel with
  | O => Raise OutOfFuel
  | S f =>
      expected_type <- (if is_PNone expected_type
                        then kp <- key_path ;; helpers.resolve_schema_key kp self
                        else Ok expected_type) ;;
      let o := get_origin expected_type in
      if origin_is o t_list || origin_is o t_set || origin_is o t_dict ||
         isinstance_of expected_type t_list || isinstance_of expected_type t_set ||
         isinstance_of expected_type t_dict
      then validate_container f m self key_path value expected_type
      else if origin_is o t_tuple
      then validate_tuple f m self key_path value expected_type ;;; Ok PNone
      else validate_scalar f m self key_path value expected_type
  end

with validate_container (fuel : nat) (m : mixin) (self : obj) (key_path : path)
  (value expected_type : obj) {struct fuel} : res obj :=
  match fuel with
  | O => Raise OutOfFuel
  | S f =>
      if is_PNone expected_type then Ok PNone
      else
        type_check m expected_type value ;;;
        (match get_origin expected_type with
         | OClass t_list | OClass t_tuple =>
             match get_args expected_type with
             | [item_type] =>
                 items <- iter_items value ;;
                 for_enumerate
                   (fun i item =>
                      validate_recursive f m self (path_index key_path i) item item_type
                      ;;; Ok tt) 0 items
             | _ => Raise ValueError
             end
         | OClass t_set =>
             match get_args expected_type with
             | [item_type] =>
                 items <- iter_items value ;;
                 forM_ (fun item =>
                          validate_recursive f m self (path_brace key_path item)
                            item item_type ;;; Ok tt) items
             | _ => Raise ValueError
             end
         | OClass t_dict =>
             let '(key_type, val_type) := _extract_keyval_types expected_type in
             items <- dict_items value ;;
             forM_ (fun kv =>
                      validate_recursive f m self (path_key key_path)
                        (fst kv) key_type ;;;
                      validate_recursive f m self (path_dot key_path (fst kv))
                        (snd kv) val_type ;;; Ok tt) items
         | _ => Ok tt
         end) ;;;
        Ok expected_type
  end

with validate_tuple (fuel : nat) (m : mixin) (self : obj) (key_path : path)
  (value expected_type : obj) {struct fuel} : res unit :=
  match fuel with
  | O => Raise OutOfFuel
  | S f =>
      if negb (isinstance_of value t_tuple) then Raise (TypeError ExpectedTuple)
      else
        let args := get_args expected_type in
        items <- iter_items value ;;
        if is_Ellipsis (last args PNone) then
          let subtype := hd PNone args in
          for_enumerate
            (fun i item =>
               validate_recursive f m self (path_index key_path i) item subtype
               ;;; Ok tt) 0 items
        else if negb (Nat.eqb (List.length args) (List.length items))
        then Raise (TypeError TupleArity)
        else
          for_enumerate
            (fun i it =>
               validate_recursive f m self (path_index key_path i) it
                 (nth i args PNone) ;;; Ok tt) 0 items
  end

with validate_scalar (fuel : nat) (m : mixin) (self : obj) (key_path : path)
  (value expected_type : obj) {struct fuel} : res obj :=
  match fuel with
  | O => Raise OutOfFuel
  | S f =>
      matched_type <- (if is_union expected_type
                       then resolve_union_branch f m self value expected_type
                       else Ok expected_type) ;;
      type_check m matched_type value ;;;
      Ok matched_type
  end.

(** [_validate_meta(meta, expected_type)] *)
Definition _validate_meta (fuel : nat) (m : mixin) (self meta expected_type : obj)
  : res unit :=
  validate_recursive fuel m self (Ok (PStr "value")) meta expected_type ;;; Ok tt.

(** [schema_for(key)] *)
Definition schema_for (self key : obj) : res obj :=
  match self with
  | PDict items =>
      b <- dict_contains key items ;;
      if b then
        match dict_get key items with
        | Some v => Ok v
        | None => Raise KeyError
        end
      else
        (fix go (l : dict) : res obj :=
           match l with
           | [] => Raise (TypeError KeyNotAllowed)
           | (PTuple ts, v_type) :: r =>
               b <- any_isinstance key ts ;;
               if b then Ok v_type else go r
           | (PType t, v_type) :: r =>
               if isinstance_of key t then Ok v_type else go r
           | _ :: r => go r
           end) items
  | _ => Raise (TypeError KeyNotAllowed)
  end.

End SchemaValidator.

(** Calling a method of a validator object. *)
Definition validator_validate_all (fuel : nat) (v : validator) (data : obj)
  : res unit :=
  match v with
  | NoOpValidator => Ok tt
  | SchemaValidator_ schema m => SchemaValidator.validate_all fuel m schema data
  end.

Definition validator_type_check (v : validator) (value expected_type : obj)
  : res unit :=
  match v with
  | NoOpValidator => Ok tt
  | SchemaValidator_ _ m => SchemaValidator.type_check m expected_type value
  end.

(** ** schema.py: build_validator and fill_missing_keys *)

(** [Schema.build_validator()]: NoOpValidator takes no argument, so a
    schema that holds it as [validator_cls] cannot instantiate it with
    [self.schema]. *)
Definition build_validator (self : obj) : res validator :=
  match self with
  | PSchema schema validate cls =>
      if negb validate then Ok NoOpValidator
      else
        match cls with
        | SchemaValidatorCls => Ok (SchemaValidator_ schema MetaNodeMixin)
        | NoOpValidatorCls => Raise (TypeError BadArguments)
        end
  | _ => Raise AttributeError
  end.

(** [fill_missing_keys(data, schema)]; the dict it updates in place is
    returned. *)
Fixpoint fill_missing_keys (schema : obj) (data : dict) {struct schema} : res dict :=
  match schema with
  | PDict items =>
      (fix go (l : dict) (data : dict) {struct l} : res dict :=
         match l with
         | [] => Ok data
         | (key, expected_type) :: r =>
             if is_class key then go r data
             else
               present <- dict_contains key data ;;
               data' <-
                 match dict_get key data with
                 | Some cur =>
                     if negb present || is_PNone cur then
                       d <- helpers.get_default_from_type expected_type ;;
                       dict_store key d data
                     else
                       match cur, expected_type with
                       | PDict inner, PDict _ =>
                           inner' <- fill_missing_keys expected_type inner ;;
                           dict_store key (PDict inner') data
                       | _, _ => Ok data
                       end
                 | None =>
                     d <- helpers.get_default_from_type expected_type ;;
                     dict_store key d data
                 end ;;
               go r data'
         end) items data
  | _ => Raise AttributeError
  end.

(** ** meta_core.py *)

Module meta_core.

(** [get_default_value_from_type(tp)] *)
Fixpoint get_default_value_from_type (tp : obj) : res obj :=
  match tp with
  | PAny | PNone => Ok PNone
  | PUnion false args =>
      (fix go (l : list obj) : res obj :=
         match l with
         | [] => Ok PNone
         | sub :: r =>
             if is_NoneType sub then go r
             else get_default_value_from_type sub
         end) args
  | PList _ => Ok (PList [])
  | PSet _ => Ok (PSet [])
  | PDict _ => Ok (PDict [])
  | PGeneric t_list _ => Ok (PList [])
  | PGeneric t_set _ => Ok (PSet [])
  | PGeneric t_dict _ => Ok (PDict [])
  | PType t => catch_Exception (py_call0 tp) (Ok PNone)
  | _ => Ok PNone
  end.

Definition has_non_ascii (s : string) : bool :=
  existsb (fun c => Nat.leb 128 (nat_of_ascii c)) (list_ascii_of_string s).

(** [k.isdigit()] / [k.isnumeric()] for a text of ASCII characters. *)
Definition all_digits (s : string) : bool :=
  negb (is_empty_str s) &&
  forallb (fun c => match digit_of c with Some _ => true | None => false end)
          (list_ascii_of_string s).

Definition isnumeric (s : string) : res bool :=
  if has_non_ascii s then Raise Unmodelled else Ok (all_digits s).

(** The local [coerce_key] of [coerce_dict_keys]. *)
Definition coerce_key_for (key_type k : obj) : res obj :=
  match key_type, k with
  | PType t_int, PStr s =>
      d <- isnumeric s ;;
      if d then call_class t_int k else Ok k
  | PType t_float, PStr s =>
      match call_class t_float k with
      | Raise ValueError => Ok k
      | r => r
      end
  | _, _ => Ok k
  end.

(** [coerce_dict_keys(data, schema)] of meta_core.py (the definition that
    is in force in that module: it follows the import of the helper of the
    same name). *)
Fixpoint coerce_dict_keys (schema : obj) (data : obj) {struct schema} : res obj :=
  match schema with
  | PGeneric t_dict [key_type; value_type] =>
      items <- dict_items data ;;
      out <- (fix go (l : dict) (out : dict) {struct l} : res dict :=
                match l with
                | [] => Ok out
                | (k, v) :: r =>
                    coerced_k <- coerce_key_for key_type k ;;
                    coerced_v <- (if isinstance_of v t_dict
                                  then coerce_dict_keys value_type v
                                  else Ok v) ;;
                    out' <- dict_store coerced_k coerced_v out ;;
                    go r out'
                end) items [] ;;
      Ok (PDict out)
  | _ => Ok data
  end.

(** [MetaContainer._coerce_key_type(key)]: [schema] is the node's
    [.schema] attribute. *)
Definition _coerce_key_type (schema key : obj) : res obj :=
  match schema with
  | PGeneric t_dict [expected_key_type; _] =>
      match expected_key_type, key with
      | PType t_int, PStr s =>
          d <- isnumeric s ;;
          if d then call_class t_int key else Ok key
      | PType t_float, PStr s =>
          match call_class t_float key with
          | Raise ValueError => Ok key
          | r => r
          end
      | PType t_bool, PStr s =>
          if String.eqb s "True" then Ok (PBool true)
          else if String.eqb s "False" then Ok (PBool false)
          else Ok key
      | _, _ => Ok key
      end
  | PGeneric t_dict _ => Raise ValueError
  | _ => Ok key
  end.

(** The two identical loops of [resolve_schema] over [schema_base.items()]. *)
Fixpoint resolve_schema_by_type (key : obj) (items : dict) : res (option obj) :=
  match items with
  | [] => Ok None
  | (PType t, v_type) :: r =>
      if isinstance_of key t then Ok (Some v_type)
      else resolve_schema_by_type key r
  | (PTuple ts, v_type) :: r =>
      b <- any_isinstance key ts ;;
      if b then Ok (Some v_type) else resolve_schema_by_type key r
  | _ :: r => resolve_schema_by_type key r
  end.

(** [MetaContainer.resolve_schema(key, value)]; [schema] is the node's
    [.schema].  The node's validator is an object and so always true. *)
Definition resolve_schema (schema key : obj) : res obj :=
  key <- _coerce_key_type schema key ;;
  let schema_base := match schema with
                     | PSchema s _ _ => s
                     | _ => schema
                     end in
  match schema_base with
  | PDict items =>
      b <- dict_contains key items ;;
      if b then
        match dict_get key items with
        | Some v => Ok v
        | None => Raise KeyError
        end
      else
        r <- resolve_schema_by_type key items ;;
        match r with
        | Some v => Ok v
        | None => Ok PNone
        end
  | PGeneric t_dict [_; val_type] => Ok val_type
  | PGeneric t_dict _ => Raise ValueError
  | _ => Ok PNone
  end.

(** The keyword arguments the constructors pass along: [fill_defaults]
    and [validate], each possibly absent. *)
Record kwargs := { kw_fill_defaults : option bool; kw_validate : option bool }.

Definition no_kwargs : kwargs :=
  {| kw_fill_defaults := None; kw_validate := None |}.

Definition kwargs_empty (kw : kwargs) : bool :=
  match kw_fill_defaults kw, kw_validate kw with
  | None, None => true
  | _, _ => false
  end.

(** [schema if isinstance(schema, Schema) else Schema(schema, **kwargs)] *)
Definition as_schema (kw : kwargs) (schema : obj) : res obj :=
  match schema with
  | PSchema _ _ _ => Ok schema
  | _ => Schema.__init__ schema SchemaValidatorCls (kw_validate kw)
  end.

Definition node_schema (n : obj) : obj :=
  match n with
  | PMeta _ s _ => s
  | _ => PNone
  end.

Definition set_node_schema (n s : obj) : obj :=
  match n with
  | PMeta k _ v => PMeta k s v
  | _ => n
  end.

Definition is_schema_obj (s : obj) : bool :=
  match s with
  | PSchema _ _ _ => true
  | _ => false
  end.

(** [MetaBool(value, schema=schema, **kwargs)]: neither [__new__] nor
    [__init__] of MetaBool takes further keywords. *)
Definition MetaBool_new (kw : kwargs) (value schema : obj) : res obj :=
  if negb (kwargs_empty kw) then Raise (TypeError BadArguments)
  else
    let coerced := if truthy value then 1 else 0 in
    (if is_PNone schema then Ok tt
     else SchemaValidator.type_check MixinMetaBool schema value) ;;;
    Ok (PMeta MetaBool schema (PInt coerced)).

(** [MetaNone(value, schema=schema, **kwargs)]: [__new__] drops its
    arguments, so the mixin stores schema None, and [__init__] reads that
    attribute back. *)
Definition MetaNone_new : res obj := Ok (PMeta MetaNone PNone PNone).

(** [list.insert(i, x)] *)
Definition list_insert (l : list obj) (i : Z) (x : obj) : list obj :=
  let n := Z.of_nat (List.length l) in
  let j := if i <? 0 then Z.max 0 (i + n) else Z.min i n in
  firstn (Z.to_nat j) l ++ x :: skipn (Z.to_nat j) l.

(** [l[i] = x] for a list. *)
Definition list_setitem (l : list obj) (i : Z) (x : obj) : res (list obj) :=
  let n := Z.of_nat (List.length l) in
  let j := if i <? 0 then i + n else i in
  if (0 <=? j) && (j <? n)
  then Ok (firstn (Z.to_nat j) l ++ x :: skipn (S (Z.to_nat j)) l)
  else Raise IndexError.

(** [isinstance(x, Iterable)] *)
Definition is_iterable (x : obj) : bool :=
  match iter_items x with
  | Ok _ => true
  | Raise _ => false
  end.

(** The first index whose item satisfies [p]. *)
Fixpoint find_index (p : obj -> bool) (l : list obj) (i : Z) : option Z :=
  match l with
  | [] => None
  | x :: r => if p x then Some i else find_index p r (i + 1)
  end.

(** [MetaScalar.__new__] followed by [MetaNodeMixin.__init__], which the
    scalar classes inherit. *)
Definition MetaScalar_new (fuel : nat) (k : metakind) (t : pytype) (value schema : obj)
  : res obj :=
  if negb (is_schema_obj schema) then Raise AssertionError
  else
    payload <- call_class t value ;;
    validator <- build_validator schema ;;
    validator_type_check validator value
      (match schema with PSchema s _ _ => s | _ => PNone end) ;;;
    let instance := PMeta k schema payload in
    (* MetaNodeMixin.__init__: self.validator = SchemaValidator(schema) *)
    catch_Exception
      (SchemaValidator.validate_all fuel MetaNodeMixin schema instance)
      (Raise (TypeError ValidationError)) ;;;
    Ok instance.

(** What a mutating method leaves behind: its result, and the node after
    it (changed in place, also when the method raises later on). *)
Definition outcome := (res obj * obj)%type.

(** [wrap_meta_structure] and the constructors and mutators of the node
    classes call one another; each call spends one unit of fuel. *)
Fixpoint wrap_meta_structure (fuel : nat) (kw : kwargs) (data schema : obj)
  {struct fuel} : res obj :=
  match fuel with
  | O => Raise OutOfFuel
  | S f =>
      if is_meta data then
        if is_PNone schema then Ok data
        else s <- as_schema kw schema ;; Ok (set_node_schema data s)
      else
        schema_obj <- as_schema kw schema ;;
        let validate_node node :=
          validator <- build_validator schema_obj ;;
          validator_validate_all f validator node ;;;
          Ok node in
        match data with
        | PBool _ =>
            node <- MetaBool_new kw data schema_obj ;; validate_node node
        | PInt _ =>
            node <- MetaScalar_new f MetaInt t_int data schema_obj ;;
            validate_node node
        | PFloat _ =>
            node <- MetaScalar_new f MetaFloat t_float data schema_obj ;;
            validate_node node
        | PStr _ =>
            node <- MetaScalar_new f MetaStr t_str data schema_obj ;;
            validate_node node
        | PDict _ =>
            raw_data <- coerce_dict_keys (match schema_obj with
                                          | PSchema s _ _ => s
                                          | _ => PNone
                                          end) data ;;
            raw_items <- dict_items raw_data ;;
            raw_items <-
              match kw_fill_defaults kw, schema_obj with
              | Some true, PSchema (PDict _ as s) _ _ => fill_missing_keys s raw_items
              | _, _ => Ok raw_items
              end ;;
            wrapped <-
              (fix go (l : dict) (out : dict) {struct l} : res dict :=
                 match l with
                 | [] => Ok out
                 | (k, v) :: r =>
                     coerced_k <- Schema.coerce_key py_call schema_obj k ;;
                     sub_schema <- Schema.resolve_from schema_obj coerced_k v 0 ;;
                     w <- wrap_meta_structure f kw v sub_schema ;;
                     out' <- dict_store coerced_k w out ;;
                     go r out'
                 end) raw_items [] ;;
            node <- MetaContainer_new f MetaDict (PDict wrapped) schema_obj ;;
            validate_node node
        | PList items | PTuple items | PSet items =>
            sub_schema <- Schema.__call__ schema_obj data ;;
            container_data <- mapM (fun i => wrap_meta_structure f kw i sub_schema) items ;;
            node <-
              match data with
              | PSet _ =>
                  s <- set_of_items container_data [] ;;
                  MetaContainer_new f MetaSet (PSet s) schema_obj
              | PTuple _ => MetaContainer_new f MetaTuple (PList container_data) schema_obj
              | _ => MetaContainer_new f MetaList (PList container_data) schema_obj
              end ;;
            validate_node node
        | PNone =>
            node <- MetaNone_new ;; validate_node node
        | _ => Raise (TypeError UnsupportedType)
        end
  end

(** [MetaContainer.__new__] and [MetaContainer.__init__] *)
with MetaContainer_new (fuel : nat) (k : metakind) (data schema : obj)
  {struct fuel} : res obj :=
  match fuel with
  | O => Raise OutOfFuel
  | S f =>
      if negb (is_schema_obj schema) then Raise AssertionError
      else
        let wrap_raw (i s : obj) : res obj :=
          if is_meta i then Ok i
          else s' <- Schema.ensure s ;; wrap_meta_structure f no_kwargs i s' in
        match k with
        | MetaTuple =>
            let args := if truthy schema then get_args schema else [] in
            src <- (if truthy data then iter_items data else Ok []) ;;
            items <-
              (if is_Ellipsis (last args PNone)
               then mapM (fun i => wrap_raw i (hd PNone args)) src
               else mapM (fun is_ => wrap_raw (fst is_) (snd is_)) (helpers.zip src args)) ;;
            Ok (PMeta MetaTuple schema (PTuple items))
        | MetaDict =>
            let data := if is_PNone data then PDict [] else data in
            if isinstance_of data t_dict then
              items <- dict_items data ;;
              (fix go (l : dict) (self : obj) {struct l} : res obj :=
                 match l with
                 | [] => Ok self
                 | (key, v) :: r =>
                     coerced_k <- _coerce_key_type schema key ;;
                     raw <- resolve_schema schema coerced_k ;;
                     resolved <- Schema.ensure raw ;;
                     wrapped <- (if is_meta v then Ok v
                                 else wrap_meta_structure f no_kwargs v resolved) ;;
                     self' <- MetaContainer_setitem f self coerced_k wrapped ;;
                     go r self'
                 end) items (PMeta MetaDict schema (PDict []))
            else Raise (TypeError UnsupportedInit)
        | MetaList =>
            let data := if is_PNone data then PList [] else data in
            if isinstance_of data t_list then
              items <- iter_items data ;;
              (fix go (l : list obj) (acc : list obj) {struct l} : res obj :=
                 match l with
                 | [] => Ok (PMeta MetaList schema (PList acc))
                 | item :: r =>
                     raw <- SchemaValidator.validate_recursive f MetaNodeMixin schema
                              (Ok PNone) item PNone ;;
                     resolved_schema <- Schema.ensure raw ;;
                     wrapped <- (if is_meta item then Ok item
                                 else wrap_meta_structure f no_kwargs item resolved_schema) ;;
                     go r (acc ++ [wrapped])
                 end) items []
            else Raise (TypeError UnsupportedInit)
        | MetaSet =>
            let data := if is_PNone data then PSet [] else data in
            if isinstance_of data t_set then
              items <- iter_items data ;;
              (fix go (l : list obj) (self : obj) {struct l} : res obj :=
                 match l with
                 | [] => Ok self
                 | item :: r =>
                     raw <- SchemaValidator.validate_recursive f MetaNodeMixin schema
                              (Ok PNone) item PNone ;;
                     wrapped <- (if is_meta item then Ok item
                                 else s' <- Schema.ensure raw ;;
                                      wrap_meta_structure f no_kwargs item s') ;;
                     match MetaContainer_add f self [wrapped] with
                     | (Ok _, self') => go r self'
                     | (Raise e, _) => Raise e
                     end
                 end) items (PMeta MetaSet schema (PSet []))
            else Raise (TypeError UnsupportedInit)
        | _ => Raise Unmodelled
        end
  end

(** [MetaContainer.__setitem__(key, value)]: the node after the store. *)
with MetaContainer_setitem (fuel : nat) (self key value : obj) {struct fuel}
  : res obj :=
  match fuel with
  | O => Raise OutOfFuel
  | S f =>
      match self with
      | PMeta MetaDict schema (PDict d) =>
          raw <- resolve_schema schema key ;;
          resolved <- Schema.ensure raw ;;
          wrapped <- (if is_meta value then Ok value
                      else wrap_meta_structure f no_kwargs value resolved) ;;
          (match schema with
           | PGeneric t_dict (key_type :: _) =>
               b <- isinstance key key_type ;;
               if b then Ok tt else Raise (TypeError InvalidKeyType)
           | _ => Ok tt
           end) ;;;
          d' <- dict_store key wrapped d ;;
          Ok (PMeta MetaDict schema (PDict d'))
      | PMeta MetaList schema (PList l) =>
          raw <- resolve_schema schema key ;;
          resolved <- Schema.ensure raw ;;
          wrapped <- (if is_meta value then Ok value
                      else wrap_meta_structure f no_kwargs value resolved) ;;
          let wrapped := set_node_schema wrapped resolved in
          match int_value key with
          | Some i => l' <- list_setitem l i wrapped ;;
                      Ok (PMeta MetaList schema (PList l'))
          | None => Raise Unmodelled
          end
      | PMeta MetaTuple schema (PTuple l) =>
          (* super().__setitem__ is the empty MetaNodeMixin.__setitem__ *)
          raw <- resolve_schema schema key ;;
          resolved <- Schema.ensure raw ;;
          (if is_meta value then Ok value
           else wrap_meta_structure f no_kwargs value resolved) ;;;
          Ok self
      | PMeta MetaSet _ _ => Raise (TypeError SetitemOnSet)
      | _ => Raise Unmodelled
      end
  end

(** [MetaContainer.add] on the positional arguments [args] *)
with MetaContainer_add (fuel : nat) (self : obj) (args : list obj) {struct fuel}
  : outcome :=
  match fuel with
  | O => (Raise OutOfFuel, self)
  | S f =>
      let chain (val : obj) (self' : obj) : outcome :=
        if is_meta val &&
           (isinstance_of val t_dict || isinstance_of val t_list ||
            isinstance_of val t_set)
        then (Ok val, self') else (Ok self', self') in
      let fail (e : exn) : outcome := (Raise e, self) in
      match self, args with
      | _, [] => fail ValueError
      | PMeta MetaDict schema (PDict d), _ =>
          match (match args with
                 | [a] => if isinstance_of a t_dict then Ok (a, PNone)
                          else Raise ValueError
                 | [k; v] => Ok (k, v)
                 | _ => Raise ValueError
                 end) with
          | Raise e => fail e
          | Ok (k, v) =>
              match (k <- match k with
                          | PStr s | PMeta MetaStr _ (PStr s) =>
                              n <- isnumeric s ;;
                              if n then call_class t_int k else Ok k
                          | _ => Ok k
                          end ;;
                     raw <- resolve_schema schema k ;;
                     resolved <- Schema.ensure raw ;;
                     val <- wrap_meta_structure f no_kwargs v resolved ;;
                     d' <- dict_store k val d ;;
                     Ok (val, d')) with
              | Raise e => fail e
              | Ok (val, d') => chain val (PMeta MetaDict schema (PDict d'))
              end
          end
      | PMeta MetaList schema (PList l), [v] =>
          match (raw <- resolve_schema schema PNone ;;
                 resolved <- Schema.ensure raw ;;
                 wrap_meta_structure f no_kwargs v resolved) with
          | Raise e => fail e
          | Ok val => chain val (PMeta MetaList schema (PList (l ++ [val])))
          end
      | PMeta MetaList schema (PList l), [k; v] =>
          match (raw <- resolve_schema schema k ;;
                 resolved <- Schema.ensure raw ;;
                 wrap_meta_structure f no_kwargs v resolved) with
          | Raise e => fail e
          | Ok val =>
              match int_value k with
              | Some i => chain val (PMeta MetaList schema (PList (list_insert l i val)))
              | None =>
                  if negb (is_PNone k) && existsb (fun x => py_eq k x) l then
                    if existsb (fun i => py_eq i val) l then chain val self
                    else
                      match find_index (fun item => py_eq item k) l 0 with
                      | Some idx =>
                          chain val (PMeta MetaList schema (PList (list_insert l idx val)))
                      | None => chain val self
                      end
                  else chain val (PMeta MetaList schema (PList (l ++ [val])))
              end
          end
      | PMeta MetaList _ _, _ => fail ValueError
      | PMeta MetaSet schema (PSet s), val :: _ =>
          let add_one (item : obj) (s : list obj) : res (list obj) :=
            resolved <- resolve_schema schema item ;;
            wrapped <- wrap_meta_structure f no_kwargs item resolved ;;
            set_add wrapped s in
          if is_iterable val &&
             negb (isinstance_of val t_str || isinstance_of val t_dict)
          then
            match iter_items val with
            | Raise e => fail e
            | Ok items =>
                (fix go (l : list obj) (s : list obj) {struct l} : outcome :=
                   match l with
                   | [] => chain val (PMeta MetaSet schema (PSet s))
                   | item :: r =>
                       match add_one item s with
                       | Ok s' => go r s'
                       | Raise e => (Raise e, PMeta MetaSet schema (PSet s))
                       end
                   end) items s
            end
          else
            match add_one val s with
            | Ok s' => chain val (PMeta MetaSet schema (PSet s'))
            | Raise e => fail e
            end
      | PMeta MetaTuple _ _, _ =>
          (* [_pull_args] raises before the tuple branch of [add] is reached *)
          fail NotImplementedError
      | _, _ => fail Unmodelled
      end
  end.

(** [MetaContainer._pull_args] on the positional arguments [args]: the
    pair (key, value) the mutators work on.  A set node takes its first
    argument as the value; a tuple node has no case and raises. *)
Definition _pull_args (self : obj) (args : list obj) : res (obj * obj) :=
  match args with
  | [] => Raise ValueError
  | a0 :: rest =>
      match self with
      | PMeta MetaSet _ _ => Ok (PNone, a0)
      | PMeta MetaList _ _ =>
          match rest with
          | [] => Ok (PNone, a0)
          | [a1] => Ok (a0, a1)
          | _ => Raise ValueError
          end
      | PMeta MetaDict _ _ =>
          match rest with
          | [] => if isinstance_of a0 t_dict then Ok (a0, PNone) else Raise ValueError
          | [a1] => Ok (a0, a1)
          | _ => Raise ValueError
          end
      | PMeta MetaTuple _ _ => Raise NotImplementedError
      | _ => Raise Unmodelled
      end
  end.

(** [MetaContainer.set(key, value)], the two-argument form:
    [other, v = self._pull_args(key, value)], then resolve, wrap and
    [self[other] = wrapped]. *)
Definition MetaContainer_set (fuel : nat) (self key v : obj) : outcome :=
  match (pulled <- _pull_args self [key; v] ;;
         let '(other, v) := pulled in
         raw <- resolve_schema (node_schema self) other ;;
         resolved <- Schema.ensure raw ;;
         wrapped <- wrap_meta_structure fuel no_kwargs v resolved ;;
         MetaContainer_setitem fuel self other wrapped) with
  | Ok self' => (Ok self', self')
  | Raise e => (Raise e, self)
  end.

End meta_core.

(** ** meta.py: the facade *)

Module Meta.

(** [Meta(data, schema, **kwargs)] without the [additional] keyword (the
    merge of an extra schema is outside the core): fill, normalise the
    data, wrap; a failed wrap is printed and ends the process. *)
Definition new (fuel : nat) (kw : meta_core.kwargs) (data schema : obj) : res obj :=
  schema_obj <- meta_core.as_schema kw schema ;;
  let s := match schema_obj with PSchema s _ _ => s | _ => PNone end in
  data <- match meta_core.kw_fill_defaults kw, data, s with
          | Some true, PDict d, PDict _ => d' <- fill_missing_keys s d ;; Ok (PDict d')
          | _, _, _ => Ok data
          end ;;
  data <- helpers.normalize_data s data ;;
  catch_Exception (meta_core.wrap_meta_structure fuel kw data schema_obj)
                  (Raise SystemExit).

End Meta.

(** ** Vocabulary of the properties *)

(** Schema expressions and data used in the statements below. *)
Definition py_int : obj := PType t_int.
Definition py_str : obj := PType t_str.
Definition py_NoneType : obj := PType t_NoneType.
Definition Union_ (args : list obj) : obj := PUnion false args.
Definition Optional_ (t : obj) : obj := PUnion false [t; py_NoneType].
Definition Dict_ (k v : obj) : obj := PGeneric t_dict [k; v].
Definition List_ (t : obj) : obj := PGeneric t_list [t].
Definition Set_ (t : obj) : obj := PGeneric t_set [t].

(** The [Schema] object of a sequence or set descriptor with items [l]. *)
Definition sequence_schema (as_set : bool) (l : list obj) (validate : bool)
  (cls : vcls) : obj :=
  PSchema (if as_set then PSet l else PList l) validate cls.

(** The [.schema] attribute of a node. *)
Definition node_schema_of (n : obj) : obj := meta_core.node_schema n.

(** In the words of the specification: a key-pattern is a literal key, a
    scalar type (it matches every key of that runtime type) or a tuple of
    scalar types (it matches every key whose type is one of them).
    [pattern_accepts p k]: the declared pattern [p] matches the key [k]. *)
Definition class_accepts (k t : obj) : bool :=
  match t with
  | PType t' => isinstance_of k t'
  | _ => false
  end.

Definition pattern_accepts (p k : obj) : bool :=
  py_eq p k ||
  match p with
  | PType _ => class_accepts k p
  | PTuple ts => existsb (class_accepts k) ts
  | _ => false
  end.

(** A tuple used as a key-pattern holds classes only. *)
Definition pattern_well_formed (p : obj) : bool :=
  match p with
  | PTuple ts => all_classes ts
  | _ => true
  end.

(** The schema object every falsy schema expression yields, and the one
    its positions resolve to. *)
Definition empty_schema : obj := PSchema PNone false NoOpValidatorCls.
Definition any_schema : obj := PSchema PAny false NoOpValidatorCls.

(** Members a set can hold and still be wrapped: the wrapped form of a
    tuple or of None has no usable hash. *)
Definition set_member (x : obj) : bool :=
  match x with
  | PBool _ | PInt _ | PFloat _ | PStr _ => true
  | _ => false
  end.

(** Plain data the wrapper takes in: scalars, lists, tuples, dicts with
    hashable keys, and sets of bool, int, float and str. *)
Fixpoint wrappable (x : obj) : bool :=
  match x with
  | PNone | PBool _ | PInt _ | PFloat _ | PStr _ => true
  | PList l | PTuple l => forallb wrappable l
  | PSet l => forallb set_member l
  | PDict d => forallb (fun kv => hashable (fst kv) && wrappable (snd kv)) d
  | _ => false
  end.

(** Nesting depth of plain data: 0 for scalars. *)
Fixpoint depth (x : obj) : nat :=
  match x with
  | PList l | PTuple l | PSet l =>
      S (fold_right (fun y a => Nat.max (depth y) a) O l)
  | PDict d => S (fold_right (fun kv a => Nat.max (depth (snd kv)) a) O d)
  | _ => O
  end.

(** The nodes of the scalar classes that can be hashed. *)
Definition scalar_node (x : obj) : bool :=
  match x with
  | PMeta (MetaBool | MetaInt | MetaFloat | MetaStr) _ (PInt _ | PFloat _ | PStr _) => true
  | _ => false
  end.

(** The node a scalar is wrapped to under the schema object [S0]. *)
Definition wrapped_scalar (S0 x : obj) : obj :=
  match x with
  | PBool b => PMeta MetaBool S0 (PInt (if b then 1 else 0))
  | PInt z => PMeta MetaInt S0 x
  | PFloat q => PMeta MetaFloat S0 x
  | PStr s => PMeta MetaStr S0 x
  | _ => PMeta MetaNone PNone PNone
  end.

(** Every item is a node. *)
Definition all_meta (l : list obj) : Prop := Forall (fun i => is_meta i = true) l.

(** The dict a dict node holds once [__init__] has stored the entries of
    [d] one by one. *)
Definition dict_rebuild (d acc : dict) : dict :=
  fold_left (fun acc kv => dict_set (fst kv) (snd kv) acc) d acc.

(** Keys that can be hashed, values that are nodes. *)
Definition dict_ok (d : dict) : Prop :=
  Forall (fun kv => hashable (fst kv) = true /\ is_meta (snd kv) = true) d.

(** [s.add(x)] when [x] can be hashed. *)
Definition set_insert (x : obj) (s : list obj) : list obj :=
  if set_mem x s then s else s ++ [x].

(** The set a set node holds once [__init__] has added the items of [l]. *)
Definition set_rebuild (l acc : list obj) : list obj :=
  fold_left (fun acc x => set_insert x acc) l acc.

(** The loop of the dict branch of [meta_core.wrap_meta_structure] under an open
    schema. *)
Fixpoint wrap_items (f : nat) (l : dict) (out : dict) : res dict :=
  match l with
  | [] => Ok out
  | (k, v) :: r =>
      w <- meta_core.wrap_meta_structure f meta_core.no_kwargs v any_schema ;;
      out' <- dict_store k w out ;;
      wrap_items f r out'
  end.

(** [get_origin(s)] is one of the typing forms the normaliser rewrites:
    a union, or a generic over dict, list, set or tuple. *)
Definition has_typing_origin (s : obj) : bool :=
  is_union s ||
  origin_is (get_origin s) t_dict || origin_is (get_origin s) t_list ||
  origin_is (get_origin s) t_set || origin_is (get_origin s) t_tuple.

(** The [.schema] attribute of a Schema object. *)
Definition schema_attr (s : obj) : obj :=
  match s with
  | PSchema d _ _ => d
  | _ => PNone
  end.

(** A type-pattern (a class, or a tuple of classes) matches the runtime
    type of the key [k]. *)
Definition type_pattern_accepts (p k : obj) : bool :=
  match p with
  | PType _ => class_accepts k p
  | PTuple ts => existsb (class_accepts k) ts
  | _ => false
  end.

(** ** meta_core.py: to_json *)

(** [x.to_json() if hasattr(x, "to_json") else x]: MetaContainer.to_json,
    MetaScalar.to_json, MetaBool.to_json and MetaNone.to_json.  Sets and
    tuples come out as lists; the keys of a dict are left as they are. *)
Fixpoint to_json (x : obj) : res obj :=
  match x with
  | PMeta MetaNone _ _ => Ok PNone
  | PMeta MetaBool _ (PInt z) => Ok (PBool (z =? 1))
  | PMeta MetaInt _ (PInt z) => Ok (PInt z)
  | PMeta MetaFloat _ (PFloat q) => Ok (PFloat q)
  | PMeta MetaStr _ (PStr s) => Ok (PStr s)
  | PMeta MetaDict _ (PDict items) =>
      kvs <- (fix go (l : list (obj * obj)) : res (list (obj * obj)) :=
                match l with
                | [] => Ok []
                | (k, v) :: r =>
                    v' <- to_json v ;;
                    r' <- go r ;;
                    Ok ((k, v') :: r')
                end) items ;;
      d <- dict_of_items kvs [] ;;
      Ok (PDict d)
  | PMeta MetaList _ (PList l)
  | PMeta MetaSet _ (PSet l)
  | PMeta MetaTuple _ (PTuple l) =>
      l' <- (fix go (l : list obj) : res (list obj) :=
               match l with
               | [] => Ok []
               | v :: r => v' <- to_json v ;; r' <- go r ;; Ok (v' :: r')
               end) l ;;
      Ok (PList l')
  | PMeta _ _ _ => Raise Unmodelled
  | _ => Ok x
  end.

(** Keys of plain data: None, bool, int, float and str. *)
Definition scalar_key (k : obj) : bool :=
  match k with
  | PNone | PBool _ | PInt _ | PFloat _ | PStr _ => true
  | _ => false
  end.

(** No key of [ks] equals a key in [seen] or an earlier key of [ks]: the
    keys of a dict, in its order. *)
Fixpoint fresh_keys (seen ks : list obj) : bool :=
  match ks with
  | [] => true
  | k :: r => negb (existsb (fun k' => py_eq k' k) seen) && fresh_keys (seen ++ [k]) r
  end.

(** Plain data without sets and tuples: scalars, lists, and dicts with
    scalar keys. *)
Fixpoint roundtrippable (x : obj) : bool :=
  match x with
  | PNone | PBool _ | PInt _ | PFloat _ | PStr _ => true
  | PList l => forallb roundtrippable l
  | PDict d =>
      forallb (fun kv => scalar_key (fst kv) && roundtrippable (snd kv)) d &&
      fresh_keys [] (map fst d)
  | _ => false
  end.

(** The node tree such data is wrapped to under the schema object [S0]:
    the children hang under the schema of Any. *)
Fixpoint wrapped_plain (S0 x : obj) : obj :=
  match x with
  | PList l => PMeta MetaList S0 (PList (map (wrapped_plain any_schema) l))
  | PDict d =>
      PMeta MetaDict S0
        (PDict (map (fun kv => (fst kv, wrapped_plain any_schema (snd kv))) d))
  | _ => wrapped_scalar S0 x
  end.

(** ** Properties *)

Section Normalizer.

(** Members that are NoneType never reach the set a union normalises to. *)
Lemma normalize_union_skips_None (pep : bool) (args : list obj) :
  Schema._normalize_schema (PUnion pep args) =
  Schema._normalize_schema (PUnion pep (filter (fun a => negb (is_NoneType a)) args)).
Proof.
  cbn [Schema._normalize_schema].
  f_equal.
  generalize (@nil obj) as acc.
  induction args as [|a r IH]; intros acc; [reflexivity|].
  cbn [filter].
  destruct (is_NoneType a) eqn:E; cbn [negb].
  - apply IH.
  - rewrite E.
    destruct (Schema._normalize_schema a); cbn [bind]; [|reflexivity].
    destruct (set_add a0 acc); cbn [bind]; [apply IH | reflexivity].
Qed.

(** C4 (failing input): Union[int, None], in either spelling, normalises
    to the one-element set {int} and not to the class int: both union
    branches return the bare set of the members left.  The key path of an
    explicit dict does collapse the same union to int, and downstream the
    one-element set is read as "a set of int", so the integer 5 is refused
    against Optional[int]. *)
Theorem C4_optional_int_not_collapsed (n : nat) :
  Schema._normalize_schema (Optional_ py_int) = Ok (PSet [py_int]) /\
  Schema._normalize_schema (PUnion true [py_int; py_NoneType]) = Ok (PSet [py_int]) /\
  Schema._normalize_schema (Optional_ py_int) <> Ok py_int /\
  Schema._normalize_schema (PDict [(Optional_ py_int, py_str)]) =
    Ok (PDict [(py_int, py_str)]) /\
  bind (Schema._normalize_schema (Optional_ py_int))
       (fun s => SchemaValidator.validate_all (2 + n) MetaNodeMixin s (PInt 5)) =
    Raise (TypeError ExpectedSet).
Proof.
  split; [reflexivity|].
  split; [reflexivity|].
  split; [discriminate|].
  split; [reflexivity|].
  vm_compute. reflexivity.
Qed.

(** C2 (failing input): Dict[Optional[int], str] normalises to
    {(int,): str}; normalising that once more gives {int: str}. *)
Theorem C2_normalize_not_idempotent :
  let d := Dict_ (Optional_ py_int) py_str in
  Schema._normalize_schema d = Ok (PDict [(PTuple [py_int], py_str)]) /\
  bind (Schema._normalize_schema d) Schema._normalize_schema =
    Ok (PDict [(py_int, py_str)]) /\
  bind (Schema._normalize_schema d) Schema._normalize_schema <>
    Schema._normalize_schema d.
Proof.
  cbv zeta. split; [reflexivity | split; [reflexivity | discriminate]].
Qed.

End Normalizer.

Section Resolver.

(** C5 (as the code has it): on a sequence or set descriptor an integer
    index inside the item list resolves to the schema of the item at that
    index; an index outside it, or a key that is no integer, resolves to
    the schema of Any and raises nothing; neither the value nor the level
    is looked at. *)
Theorem C5_resolve_from_sequence (as_set : bool) (l : list obj) (validate : bool)
  (cls : vcls) (key value : obj) (level : Z) :
  let self := sequence_schema as_set l validate cls in
  (forall i item,
      int_value key = Some i -> py_index l i = Ok item ->
      is_PNone item = false -> meta_core.is_schema_obj item = false ->
      Schema.resolve_from self key value level =
      Schema.__init__ item cls (Some validate)) /\
  ((int_value key = None \/
    exists i, int_value key = Some i /\ py_index l i = Raise IndexError) ->
   Schema.resolve_from self key value level = Ok (PSchema PAny validate cls)) /\
  Schema.resolve_from self key value level = Schema.resolve_from self key PNone 0.
Proof.
  cbv zeta. unfold sequence_schema.
  split; [|split].
  - intros i item Hk Hi Hn Hs.
    destruct as_set; cbn [Schema.resolve_from Schema.sub_schema_raw];
      rewrite Hk, Hi; cbn [bind]; rewrite Hn;
      destruct item; try discriminate; reflexivity.
  - intros [Hk | (i & Hk & Hi)];
      destruct as_set; cbn [Schema.resolve_from Schema.sub_schema_raw];
      rewrite Hk; try rewrite Hi; cbn [bind is_PNone];
      unfold Schema.__init__; cbn; destruct cls; reflexivity.
  - destruct as_set; reflexivity.
Qed.

Lemma C5_resolve_from_sequence_witness :
  Schema.resolve_from (sequence_schema false [py_int] true SchemaValidatorCls)
    (PInt 0) (PStr "x") 3 =
  Schema.__init__ py_int SchemaValidatorCls (Some true) /\
  Schema.resolve_from (sequence_schema false [py_int] true SchemaValidatorCls)
    PNone (PStr "x") 3 = Ok (PSchema PAny true SchemaValidatorCls).
Proof.
  pose proof (C5_resolve_from_sequence false [py_int] true SchemaValidatorCls
                (PInt 0) (PStr "x") 3) as [H _].
  pose proof (C5_resolve_from_sequence false [py_int] true SchemaValidatorCls
                PNone (PStr "x") 3) as [_ [H' _]].
  split.
  - apply (H 0 py_int); reflexivity.
  - apply H'. left. reflexivity.
Defined.

(** C5 as stated fails: on the descriptor [int] the index 1 resolves to
    Any, not to the item descriptor int that index 0 resolves to. *)
Lemma C5_index_one_resolves_to_Any :
  let self := sequence_schema false [py_int] true SchemaValidatorCls in
  Schema.resolve_from self (PInt 1) (PInt 5) 0 = Ok (PSchema PAny true SchemaValidatorCls) /\
  Schema.resolve_from self (PInt 0) (PInt 5) 0 = Ok (PSchema py_int true SchemaValidatorCls) /\
  Schema.resolve_from self (PInt 1) (PInt 5) 0 <> Schema.resolve_from self (PInt 0) (PInt 5) 0.
Proof.
  cbv zeta. split; [reflexivity | split; [reflexivity | discriminate]].
Qed.

End Resolver.

Section Coercer.

(** C8 (failing input): for the variadic tuple descriptor (int, ...) the
    default-value function of helpers.py returns 0, the default of the
    first member, where an empty tuple is due; the function of
    meta_core.py returns None for it. *)
Theorem C8_default_of_tuple_descriptor :
  helpers.get_default_from_type (PTuple [py_int; PEllipsis]) = Ok (PInt 0) /\
  helpers.get_default_from_type (PTuple [py_int; py_str]) = Ok (PInt 0) /\
  meta_core.get_default_value_from_type (PTuple [py_int; PEllipsis]) = Ok PNone.
Proof.
  repeat split.
Qed.

(** What the default-value functions do agree with: empty containers for
    list, set and dict descriptors, the zero of a scalar class, None for
    Any and None. *)
Lemma default_of_plain_descriptors (l : list obj) (d : dict) (t : pytype) :
  helpers.get_default_from_type (PList l) = Ok (PList []) /\
  helpers.get_default_from_type (PSet l) = Ok (PSet []) /\
  helpers.get_default_from_type (PDict d) = Ok (PDict []) /\
  helpers.get_default_from_type (PType t) = Ok (class_default t) /\
  helpers.get_default_from_type PAny = Ok PNone /\
  helpers.get_default_from_type PNone = Ok PNone.
Proof.
  repeat split; destruct t; reflexivity.
Qed.

(** C7 (failing input): [wrap_meta_structure] on {"1": "a"} under the
    schema {int: str} does not coerce the key.  Its two coercion hooks,
    [coerce_dict_keys] and [Schema.coerce_key], test for a typing Dict
    origin, which the normalised schema never has, so both return their
    input; the key stays the text "1" and the wrapped dict is refused with
    "key not allowed", also when the schema is written Dict[int, str] or
    is handed over as a Schema object.  Any fuel from 12 on suffices. *)
Theorem C7_wrapper_refuses_text_key (n : nat) :
  let data := PDict [(PStr "1", PStr "a")] in
  meta_core.wrap_meta_structure (12 + n) meta_core.no_kwargs data
    (PDict [(py_int, py_str)]) = Raise (TypeError KeyNotAllowed) /\
  meta_core.wrap_meta_structure (12 + n) meta_core.no_kwargs data
    (Dict_ py_int py_str) = Raise (TypeError KeyNotAllowed) /\
  bind (Schema.new (PDict [(py_int, py_str)]))
       (meta_core.wrap_meta_structure (12 + n) meta_core.no_kwargs data) =
    Raise (TypeError KeyNotAllowed) /\
  bind (Schema.new (Dict_ py_int py_str))
       (fun S0 => meta_core.coerce_dict_keys (schema_attr S0) data) = Ok data /\
  bind (Schema.new (Dict_ py_int py_str))
       (fun S0 => Schema.coerce_key py_call S0 (PStr "1")) = Ok (PStr "1").
Proof.
  cbv zeta.
  split; [vm_compute; reflexivity|].
  split; [vm_compute; reflexivity|].
  split; [vm_compute; reflexivity|].
  split; reflexivity.
Qed.

(** The sibling path: the facade runs [normalize_data] before it wraps,
    and there the same input becomes a dict node whose only key is the
    integer 1, with the text node "a" as its value. *)
Lemma facade_coerces_text_key (n : nat) :
  let schema := PDict [(py_int, py_str)] in
  let data := PDict [(PStr "1", PStr "a")] in
  exists node_schema value_schema,
    Meta.new (12 + n) meta_core.no_kwargs data schema =
      Ok (PMeta MetaDict node_schema
            (PDict [(PInt 1, PMeta MetaStr value_schema (PStr "a"))])) /\
    bind (Meta.new (12 + n) meta_core.no_kwargs data schema) to_native =
      Ok (PDict [(PInt 1, PStr "a")]).
Proof.
  cbv zeta. do 2 eexists. split; vm_compute; reflexivity.
Qed.

End Coercer.

Section Validator.

(** C6 (failing inputs): with a dict-shaped branch declared before the
    list-shaped one the empty list does not validate, the AttributeError of
    [data.items()] leaves [resolve_union_branch]; with a set-shaped branch
    declared first the empty list is resolved to that set branch.  Any
    fuel from 8 on gives these results. *)
Theorem C6_empty_list_against_union (n : nat) (self : obj) :
  let dict_first := Union_ [Dict_ py_str py_int; List_ py_int] in
  let set_first := Union_ [Set_ py_int; List_ py_int] in
  SchemaValidator.validate_all (8 + n) MetaNodeMixin dict_first (PList []) =
    Raise AttributeError /\
  SchemaValidator.resolve_union_branch (8 + n) MetaNodeMixin self (PList []) dict_first =
    Raise AttributeError /\
  SchemaValidator.resolve_union_branch (8 + n) MetaNodeMixin self (PList []) set_first =
    Ok (Set_ py_int).
Proof.
  cbv zeta. split; [|split]; vm_compute; reflexivity.
Qed.

(** When the list-shaped branch is declared first, the empty list is
    resolved to it at once. *)
Lemma empty_list_first_branch (n : nat) (self t : obj) (rest : list obj) :
  SchemaValidator.resolve_union_branch (S n) MetaNodeMixin self (PList [])
    (Union_ (List_ t :: rest)) = Ok (List_ t).
Proof.
  reflexivity.
Qed.

End Validator.

Section NodeWrapper.

(** C1 (failing input): the tuple (1, 2) validates against Any, wraps
    without error, and unwraps to the empty tuple. *)
Theorem C1_tuple_roundtrip_loses_items (n : nat) :
  let x := PTuple [PInt 1; PInt 2] in
  SchemaValidator.validate_all (4 + n) MetaNodeMixin PAny x = Ok tt /\
  (exists s, meta_core.wrap_meta_structure (8 + n) meta_core.no_kwargs x PAny =
             Ok (PMeta MetaTuple s (PTuple []))) /\
  bind (meta_core.wrap_meta_structure (8 + n) meta_core.no_kwargs x PAny) to_native =
    Ok (PTuple []).
Proof.
  cbv zeta. split; [|split].
  - vm_compute. reflexivity.
  - eexists. vm_compute. reflexivity.
  - vm_compute. reflexivity.
Qed.

(** Lists do come back: the same items as a list survive the round trip. *)
Lemma list_roundtrip_example (n : nat) :
  bind (meta_core.wrap_meta_structure (8 + n) meta_core.no_kwargs
          (PList [PInt 1; PInt 2]) PAny) to_native = Ok (PList [PInt 1; PInt 2]).
Proof.
  vm_compute. reflexivity.
Qed.

(** C9 (failing input): on the dict node wrapped from {} under {str: int},
    [add("a", "x")] and [set("a", "x")] raise nothing and store the text
    under "a"; wrapping {"a": "x"} as a whole under the same schema is
    refused. *)
Theorem C9_add_accepts_wrong_type (n : nat) :
  let schema := PDict [(py_str, py_int)] in
  exists node s,
    meta_core.wrap_meta_structure (8 + n) meta_core.no_kwargs (PDict []) schema =
      Ok node /\
    to_native node = Ok (PDict []) /\
    snd (meta_core.MetaContainer_add (8 + n) node [PStr "a"; PStr "x"]) =
      PMeta MetaDict (node_schema_of node)
        (PDict [(PStr "a", PMeta MetaStr s (PStr "x"))]) /\
    fst (meta_core.MetaContainer_add (8 + n) node [PStr "a"; PStr "x"]) =
      Ok (snd (meta_core.MetaContainer_add (8 + n) node [PStr "a"; PStr "x"])) /\
    meta_core.MetaContainer_set (8 + n) node (PStr "a") (PStr "x") =
      meta_core.MetaContainer_add (8 + n) node [PStr "a"; PStr "x"] /\
    meta_core.wrap_meta_structure (8 + n) meta_core.no_kwargs
      (PDict [(PStr "a", PStr "x")]) schema = Raise (TypeError ExpectedType).
Proof.
  cbv zeta. do 2 eexists.
  split; [vm_compute; reflexivity|].
  split; [vm_compute; reflexivity|].
  split; [vm_compute; reflexivity|].
  split; [vm_compute; reflexivity|].
  split; vm_compute; reflexivity.
Qed.

End NodeWrapper.

Section ClosedWorld.

Lemma any_isinstance_classes (k : obj) (ts : list obj) :
  all_classes ts = true ->
  any_isinstance k ts = Ok (existsb (class_accepts k) ts).
Proof.
  induction ts as [|t r IH]; intros H; [reflexivity|].
  cbn [all_classes forallb] in H. apply andb_prop in H as [Ht Hr].
  destruct t; try discriminate.
  cbn [any_isinstance isinstance bind existsb class_accepts].
  destruct (isinstance_of k t); [reflexivity|].
  cbn [orb]. apply IH. exact Hr.
Qed.

Lemma key_type_matches_none (k : obj) (patterns : list obj) :
  forallb pattern_well_formed patterns = true ->
  (forall p, In p patterns -> pattern_accepts p k = false) ->
  SchemaValidator.key_type_matches k patterns = Ok false.
Proof.
  induction patterns as [|p r IH]; intros Hwf Hno; [reflexivity|].
  cbn [forallb] in Hwf. apply andb_prop in Hwf as [Hp Hr].
  assert (Hpk : pattern_accepts p k = false) by (apply Hno; left; reflexivity).
  assert (IH' : SchemaValidator.key_type_matches k r = Ok false).
  { apply IH; [exact Hr | intros q Hq; apply Hno; right; exact Hq]. }
  unfold pattern_accepts in Hpk. apply orb_false_elim in Hpk as [_ Hty].
  destruct p; cbn [SchemaValidator.key_type_matches]; try exact IH'.
  - (* a tuple of classes *)
    cbn [pattern_well_formed] in Hp.
    rewrite (any_isinstance_classes k l Hp), Hty. cbn [bind]. exact IH'.
  - (* a class *)
    cbn [class_accepts] in Hty. rewrite Hty. exact IH'.
Qed.

Lemma key_type_matches_total (k : obj) (patterns : list obj) :
  forallb pattern_well_formed patterns = true ->
  exists b, SchemaValidator.key_type_matches k patterns = Ok b.
Proof.
  induction patterns as [|p r IH]; intros Hwf; [eexists; reflexivity|].
  cbn [forallb] in Hwf. apply andb_prop in Hwf as [Hp Hr].
  destruct (IH Hr) as [b Hb].
  destruct p; cbn [SchemaValidator.key_type_matches]; try (eexists; exact Hb).
  - cbn [pattern_well_formed] in Hp.
    rewrite (any_isinstance_classes k l Hp). cbn [bind].
    destruct (existsb (class_accepts k) l); eexists; [reflexivity | exact Hb].
  - destruct (isinstance_of k t); eexists; [reflexivity | exact Hb].
Qed.

Lemma dict_get_none (k : obj) (d : dict) :
  (forall p, In p (map fst d) -> py_eq p k = false) ->
  dict_get k d = None.
Proof.
  induction d as [|[p v] r IH]; intros H; [reflexivity|].
  cbn [dict_get]. rewrite (H p (or_introl eq_refl)).
  apply IH. intros q Hq. apply H. right. exact Hq.
Qed.

(** The allowed-key loop raises "not allowed" as soon as the data has a
    key no pattern accepts, whatever stands before or after it. *)
Lemma check_keys_rejects (expected : dict) (keys : list obj) (k : obj) :
  forallb hashable keys = true ->
  forallb pattern_well_formed (map fst expected) = true ->
  In k keys ->
  (forall p, In p (map fst expected) -> pattern_accepts p k = false) ->
  SchemaValidator.check_keys expected keys = Raise (TypeError KeyNotAllowed).
Proof.
  intros Hh Hwf Hin Hno.
  induction keys as [|k0 r IH]; [contradiction|].
  cbn [forallb] in Hh. apply andb_prop in Hh as [Hk0 Hr].
  cbn [SchemaValidator.check_keys]. unfold dict_contains. rewrite Hk0. cbn [bind].
  destruct Hin as [-> | Hin].
  - rewrite dict_get_none.
    + rewrite (key_type_matches_none k _ Hwf Hno). reflexivity.
    + intros p Hp. specialize (Hno p Hp). unfold pattern_accepts in Hno.
      apply orb_false_elim in Hno as [He _]. exact He.
  - specialize (IH Hr Hin).
    destruct (dict_get k0 expected); [exact IH|].
    destruct (key_type_matches_total k0 _ Hwf) as [b Hb].
    rewrite Hb. cbn [bind]. destruct b; [exact IH | reflexivity].
Qed.

(** C3: an explicit-map schema refuses, with "key not allowed", every
    dict (plain or node) that holds a key none of its declared patterns
    accepts, whatever the values are. *)
Theorem C3_closed_world_map (n : nat) (m : mixin) (expected : dict)
  (data : obj) (d : dict) (k : obj) :
  dict_items data = Ok d ->
  forallb hashable (map fst d) = true ->
  forallb pattern_well_formed (map fst expected) = true ->
  In k (map fst d) ->
  (forall p, In p (map fst expected) -> pattern_accepts p k = false) ->
  SchemaValidator.validate_all (S n) m (PDict expected) data =
    Raise (TypeError KeyNotAllowed).
Proof.
  intros Hd Hh Hwf Hin Hno.
  assert (Hdata : isinstance_of data t_dict = true /\ iter_items data = Ok (map fst d)).
  { destruct data; try discriminate.
    - injection Hd as <-. split; reflexivity.
    - destruct k0; try discriminate. destruct data2; try discriminate.
      injection Hd as <-. split; reflexivity. }
  destruct Hdata as [Hi Hit].
  cbn [SchemaValidator.validate_all is_PNone].
  rewrite Hi, Hit. cbn [bind].
  rewrite (check_keys_rejects expected (map fst d) k Hh Hwf Hin Hno).
  reflexivity.
Qed.

Lemma C3_closed_world_map_witness :
  SchemaValidator.validate_all 1 MetaNodeMixin (PDict [(PStr "name", py_str)])
    (PDict [(PStr "extra", PInt 7)]) = Raise (TypeError KeyNotAllowed).
Proof.
  apply (C3_closed_world_map 0 MetaNodeMixin [(PStr "name", py_str)]
           (PDict [(PStr "extra", PInt 7)]) [(PStr "extra", PInt 7)] (PStr "extra")).
  - reflexivity.
  - reflexivity.
  - reflexivity.
  - left. reflexivity.
  - intros p [<- | []]. reflexivity.
Defined.

End ClosedWorld.

Section FalsySchema.

Import meta_core.

Lemma ensure_None : Schema.ensure PNone = Ok empty_schema.
Proof. reflexivity. Qed.

Lemma resolve_schema_open (s key : obj) :
  s = PNone \/ s = PAny -> resolve_schema (PSchema s false NoOpValidatorCls) key = Ok PNone.
Proof. intros [-> | ->]; reflexivity. Qed.

Lemma resolve_from_open (s key value : obj) (level : Z) :
  s = PNone \/ s = PAny ->
  Schema.resolve_from (PSchema s false NoOpValidatorCls) key value level = Ok any_schema.
Proof. intros [-> | ->]; reflexivity. Qed.

Lemma validate_recursive_open (f : nat) (s item : obj) :
  SchemaValidator.validate_recursive (S (S f)) MetaNodeMixin
    (PSchema s false NoOpValidatorCls) (Ok PNone) item PNone = Ok PNone.
Proof. cbn. reflexivity. Qed.

Lemma wrap_node_None (f : nat) (item : obj) :
  is_meta item = true ->
  wrap_meta_structure (S f) no_kwargs item PNone = Ok item.
Proof. intros H. cbn [wrap_meta_structure]. rewrite H. reflexivity. Qed.

Lemma wrap_scalar_open (f : nat) (s x : obj) :
  set_member x = true \/ x = PNone ->
  wrap_meta_structure (S (S (S (S (S f))))) no_kwargs x
      (PSchema s false NoOpValidatorCls) = Ok (wrapped_scalar (PSchema s false NoOpValidatorCls) x).
Proof.
  intros [H | ->].
  - destruct x; try discriminate.
    + cbn. destruct b; reflexivity.
    + cbn. reflexivity.
    + cbn. reflexivity.
    + cbn. reflexivity.
  - cbn. reflexivity.
Qed.

Lemma container_new_list_open (f : nat) (s : obj) (l : list obj) :
  all_meta l ->
  MetaContainer_new (S (S (S f))) MetaList (PList l) (PSchema s false NoOpValidatorCls) =
  Ok (PMeta MetaList (PSchema s false NoOpValidatorCls) (PList l)).
Proof.
  intros H.
  cbn [MetaContainer_new is_schema_obj negb is_PNone isinstance_of pytype_eqb iter_items bind].
  match goal with
  | |- ?F l [] = _ =>
      enough (G : forall acc, F l acc =
                Ok (PMeta MetaList (PSchema s false NoOpValidatorCls) (PList (acc ++ l))))
        by apply (G [])
  end.
  induction H as [|item r Hi Hr IH]; intros acc.
  - rewrite app_nil_r. reflexivity.
  - rewrite validate_recursive_open. cbn [bind]. rewrite ensure_None. cbn [bind].
    rewrite Hi. cbn [bind]. rewrite IH. rewrite <- app_assoc. reflexivity.
Qed.

Lemma zip_nil_r {A B} (l : list A) : helpers.zip l (@nil B) = [].
Proof. destruct l; reflexivity. Qed.

Lemma container_new_tuple_open (f : nat) (s : obj) (l : list obj) :
  MetaContainer_new (S f) MetaTuple (PList l) (PSchema s false NoOpValidatorCls) =
  Ok (PMeta MetaTuple (PSchema s false NoOpValidatorCls) (PTuple [])).
Proof.
  cbn [MetaContainer_new is_schema_obj negb truthy truthy_plain get_args last is_Ellipsis].
  destruct l; cbn [is_nil negb iter_items bind]; rewrite ?zip_nil_r; reflexivity.
Qed.

Lemma setitem_dict_open (f : nat) (s key v : obj) (acc : dict) :
  s = PNone \/ s = PAny ->
  hashable key = true -> is_meta v = true ->
  MetaContainer_setitem (S f) (PMeta MetaDict (PSchema s false NoOpValidatorCls) (PDict acc)) key v =
  Ok (PMeta MetaDict (PSchema s false NoOpValidatorCls) (PDict (dict_set key v acc))).
Proof.
  intros Hs Hk Hv.
  cbn [MetaContainer_setitem]. rewrite (resolve_schema_open s key Hs). cbn [bind].
  rewrite ensure_None. cbn [bind]. rewrite Hv. cbn [bind].
  unfold dict_store. rewrite Hk. reflexivity.
Qed.

Lemma container_new_dict_open (f : nat) (s : obj) (d : dict) :
  s = PNone \/ s = PAny ->
  dict_ok d ->
  MetaContainer_new (S (S f)) MetaDict (PDict d) (PSchema s false NoOpValidatorCls) =
  Ok (PMeta MetaDict (PSchema s false NoOpValidatorCls) (PDict (dict_rebuild d []))).
Proof.
  intros Hs H.
  cbn [MetaContainer_new is_schema_obj negb is_PNone isinstance_of pytype_eqb dict_items bind].
  match goal with
  | |- ?F d ?N = _ =>
      enough (G : forall acc, F d (PMeta MetaDict (PSchema s false NoOpValidatorCls) (PDict acc)) =
                Ok (PMeta MetaDict (PSchema s false NoOpValidatorCls)
                      (PDict (dict_rebuild d acc))))
        by apply (G [])
  end.
  induction H as [|[k v] r [Hk Hv] Hr IH]; intros acc.
  - reflexivity.
  - cbn [fst snd] in Hk, Hv.
    assert (Hck : _coerce_key_type (PSchema s false NoOpValidatorCls) k = Ok k) by reflexivity.
    rewrite Hck. cbn [bind].
    rewrite (resolve_schema_open s k Hs). cbn [bind]. rewrite ensure_None. cbn [bind].
    rewrite Hv. cbn [bind].
    rewrite (setitem_dict_open f s k v acc Hs Hk Hv). cbn [bind].
    rewrite IH. reflexivity.
Qed.

Lemma scalar_node_meta (x : obj) : scalar_node x = true -> is_meta x = true.
Proof. destruct x; try discriminate. reflexivity. Qed.

Lemma scalar_node_hashable (x : obj) : scalar_node x = true -> hashable x = true.
Proof. destruct x; try discriminate. destruct k; try discriminate; reflexivity. Qed.

Lemma add_set_open (f : nat) (s val : obj) (acc : list obj) :
  s = PNone \/ s = PAny ->
  scalar_node val = true ->
  MetaContainer_add (S (S f)) (PMeta MetaSet (PSchema s false NoOpValidatorCls) (PSet acc)) [val] =
  (Ok (PMeta MetaSet (PSchema s false NoOpValidatorCls) (PSet (set_insert val acc))),
   PMeta MetaSet (PSchema s false NoOpValidatorCls) (PSet (set_insert val acc))).
Proof.
  intros Hs Hv.
  pose proof (scalar_node_meta val Hv) as Hm.
  pose proof (scalar_node_hashable val Hv) as Hh.
  cbn [MetaContainer_add].
  assert (Hit : is_iterable val && negb (isinstance_of val t_str || isinstance_of val t_dict) = false).
  { destruct val; try discriminate. destruct k; try discriminate;
      destruct val2; try discriminate; reflexivity. }
  rewrite Hit.
  rewrite (resolve_schema_open s val Hs). cbn [bind].
  rewrite (wrap_node_None f val Hm). cbn [bind].
  unfold set_add. rewrite Hh.
  assert (Hc : isinstance_of val t_dict || isinstance_of val t_list || isinstance_of val t_set = false).
  { destruct val; try discriminate. destruct k; try discriminate; reflexivity. }
  rewrite Hc, andb_false_r. reflexivity.
Qed.

Lemma container_new_set_open (f : nat) (s : obj) (l : list obj) :
  s = PNone \/ s = PAny ->
  Forall (fun x => scalar_node x = true) l ->
  MetaContainer_new (S (S (S f))) MetaSet (PSet l) (PSchema s false NoOpValidatorCls) =
  Ok (PMeta MetaSet (PSchema s false NoOpValidatorCls) (PSet (set_rebuild l []))).
Proof.
  intros Hs H.
  cbn [MetaContainer_new is_schema_obj negb is_PNone isinstance_of pytype_eqb iter_items bind].
  match goal with
  | |- ?F l ?N = _ =>
      enough (G : forall acc, F l (PMeta MetaSet (PSchema s false NoOpValidatorCls) (PSet acc)) =
                Ok (PMeta MetaSet (PSchema s false NoOpValidatorCls)
                      (PSet (set_rebuild l acc))))
        by apply (G [])
  end.
  induction H as [|x r Hx Hr IH]; intros acc.
  - reflexivity.
  - rewrite validate_recursive_open. cbn [bind].
    rewrite (scalar_node_meta x Hx). cbn [bind].
    rewrite (add_set_open f s x acc Hs Hx).
    rewrite IH. reflexivity.
Qed.

Lemma wrap_seq_open (f : nat) (s data : obj) (items l' : list obj) (node : obj) :
  s = PNone \/ s = PAny ->
  data = PList items \/ data = PTuple items ->
  mapM (fun i => wrap_meta_structure f no_kwargs i any_schema) items = Ok l' ->
  MetaContainer_new f (match data with PTuple _ => MetaTuple | _ => MetaList end)
    (PList l') (PSchema s false NoOpValidatorCls) = Ok node ->
  wrap_meta_structure (S f) no_kwargs data (PSchema s false NoOpValidatorCls) = Ok node.
Proof.
  intros Hs Hd Hm Hn.
  destruct Hd as [-> | ->];
    cbn [wrap_meta_structure is_meta as_schema bind];
    unfold Schema.__call__; rewrite (resolve_from_open s _ _ _ Hs); cbn [bind];
    rewrite Hm; cbn [bind]; rewrite Hn; reflexivity.
Qed.

Lemma wrap_set_open (f : nat) (s : obj) (items l' s' : list obj) (node : obj) :
  s = PNone \/ s = PAny ->
  mapM (fun i => wrap_meta_structure f no_kwargs i any_schema) items = Ok l' ->
  set_of_items l' [] = Ok s' ->
  MetaContainer_new f MetaSet (PSet s') (PSchema s false NoOpValidatorCls) = Ok node ->
  wrap_meta_structure (S f) no_kwargs (PSet items) (PSchema s false NoOpValidatorCls) = Ok node.
Proof.
  intros Hs Hm Hset Hn.
  cbn [wrap_meta_structure is_meta as_schema bind].
  unfold Schema.__call__. rewrite (resolve_from_open s _ _ _ Hs). cbn [bind].
  rewrite Hm. cbn [bind]. rewrite Hset. cbn [bind]. rewrite Hn. reflexivity.
Qed.

Lemma wrap_dict_open (f : nat) (s : obj) (d wrapped : dict) (node : obj) :
  s = PNone \/ s = PAny ->
  wrap_items f d [] = Ok wrapped ->
  MetaContainer_new f MetaDict (PDict wrapped) (PSchema s false NoOpValidatorCls) = Ok node ->
  wrap_meta_structure (S f) no_kwargs (PDict d) (PSchema s false NoOpValidatorCls) = Ok node.
Proof.
  intros Hs Hm Hn.
  cbn [wrap_meta_structure is_meta as_schema bind].
  assert (Hc : coerce_dict_keys s (PDict d) = Ok (PDict d)) by (destruct Hs as [-> | ->]; reflexivity).
  rewrite Hc. cbn [bind dict_items kw_fill_defaults no_kwargs].
  match goal with
  | |- context [bind (?F d []) _] =>
      assert (E : forall l out, F l out = wrap_items f l out)
  end.
  { induction l as [|[k v] r IH]; intros out; [reflexivity|].
    assert (Hck : Schema.coerce_key py_call (PSchema s false NoOpValidatorCls) k = Ok k)
      by (destruct Hs as [-> | ->]; reflexivity).
    rewrite Hck. cbn [bind]. rewrite (resolve_from_open s _ _ _ Hs). cbn [bind wrap_items].
    destruct (wrap_meta_structure f no_kwargs v any_schema); cbn [bind]; [|reflexivity].
    destruct (dict_store k a out); cbn [bind]; [apply IH | reflexivity]. }
  rewrite E, Hm. cbn [bind]. rewrite Hn. reflexivity.
Qed.

Lemma dict_set_ok (k v : obj) (acc : dict) :
  dict_ok acc -> hashable k = true -> is_meta v = true -> dict_ok (dict_set k v acc).
Proof.
  intros H Hk Hv. induction H as [|[k' v'] r [Hk' Hv'] Hr IH]; cbn [dict_set].
  - constructor; [split; assumption | constructor].
  - destruct (py_eq k' k).
    + constructor; [split; assumption | exact Hr].
    + constructor; [split; assumption | exact IH].
Qed.

Lemma wrap_items_ok (f : nat) (d : dict) :
  Forall (fun kv => hashable (fst kv) = true /\
                    exists node, wrap_meta_structure f no_kwargs (snd kv) any_schema = Ok node /\
                                 is_meta node = true) d ->
  forall out, dict_ok out ->
  exists wrapped, wrap_items f d out = Ok wrapped /\ dict_ok wrapped.
Proof.
  induction 1 as [|[k v] r [Hk (node & Hw & Hn)] Hr IH]; intros out Ho.
  - exists out. split; [reflexivity | exact Ho].
  - cbn [fst snd] in Hk, Hw. cbn [wrap_items]. rewrite Hw. cbn [bind].
    unfold dict_store. rewrite Hk. cbn [bind].
    apply IH. apply dict_set_ok; assumption.
Qed.

Lemma mapM_ok {A B} (g : A -> res B) (Q : A -> B -> Prop) (l : list A) :
  Forall (fun x => exists y, g x = Ok y /\ Q x y) l ->
  exists l', mapM g l = Ok l' /\ Forall2 Q l l'.
Proof.
  induction 1 as [|x r (y & Hy & HQ) Hr (l' & Hl & HF)].
  - exists []. split; [reflexivity | constructor].
  - exists (y :: l'). cbn [mapM]. rewrite Hy. cbn [bind]. rewrite Hl. cbn [bind].
    split; [reflexivity | constructor; assumption].
Qed.

Lemma set_of_items_ok (l : list obj) :
  Forall (fun x => scalar_node x = true) l ->
  forall acc, Forall (fun x => scalar_node x = true) acc ->
  exists s', set_of_items l acc = Ok s' /\ Forall (fun x => scalar_node x = true) s'.
Proof.
  induction 1 as [|x r Hx Hr IH]; intros acc Ha.
  - exists acc. split; [reflexivity | exact Ha].
  - cbn [set_of_items]. unfold set_add. rewrite (scalar_node_hashable x Hx). cbn [bind].
    apply IH. destruct (set_mem x acc); [exact Ha|].
    apply Forall_app. split; [exact Ha | constructor; [exact Hx | constructor]].
Qed.

Lemma depth_children (l : list obj) (d : nat) :
  (fold_right (fun y a => Nat.max (depth y) a) O l <= d)%nat ->
  Forall (fun x => (depth x <= d)%nat) l.
Proof.
  induction l as [|x r IH]; intros H; constructor; cbn [fold_right] in H.
  - lia.
  - apply IH. lia.
Qed.

Lemma depth_values (l : dict) (d : nat) :
  (fold_right (fun kv a => Nat.max (depth (snd kv)) a) O l <= d)%nat ->
  Forall (fun kv => (depth (snd kv) <= d)%nat) l.
Proof.
  induction l as [|x r IH]; intros H; constructor; cbn [fold_right] in H.
  - lia.
  - apply IH. lia.
Qed.

Lemma wrapped_scalar_node (S0 x : obj) :
  set_member x = true -> scalar_node (wrapped_scalar S0 x) = true.
Proof. destruct x; try discriminate; reflexivity. Qed.

Lemma wrapped_scalar_meta (S0 x : obj) : is_meta (wrapped_scalar S0 x) = true.
Proof. destruct x; reflexivity. Qed.

Lemma wrap_open_ok (d : nat) :
  forall (x s : obj) (f : nat),
    s = PNone \/ s = PAny ->
    wrappable x = true ->
    (depth x <= d)%nat ->
    exists node,
      wrap_meta_structure (5 + d + f) no_kwargs x (PSchema s false NoOpValidatorCls) = Ok node /\
      is_meta node = true /\
      (set_member x = true -> scalar_node node = true).
Proof.
  induction d as [|d IH]; intros x s f Hs Hw Hd.
  - (* depth 0: a scalar *)
    assert (Hx : set_member x = true \/ x = PNone).
    { destruct x; try discriminate; cbn [depth] in Hd; try lia; auto. }
    exists (wrapped_scalar (PSchema s false NoOpValidatorCls) x).
    split; [apply (wrap_scalar_open (0 + f) s x Hx)|].
    split; [apply wrapped_scalar_meta | apply wrapped_scalar_node].
  - change (5 + S d + f)%nat with (S (5 + d + f)).
    destruct x; try discriminate.
    + (* None *)
      exists (wrapped_scalar (PSchema s false NoOpValidatorCls) PNone).
      split; [apply (wrap_scalar_open (S d + f) s PNone); auto|].
      split; [reflexivity | discriminate].
    + exists (wrapped_scalar (PSchema s false NoOpValidatorCls) (PBool b)).
      split; [apply (wrap_scalar_open (S d + f) s (PBool b)); auto|].
      split; [reflexivity | intros _; apply wrapped_scalar_node; reflexivity].
    + exists (wrapped_scalar (PSchema s false NoOpValidatorCls) (PInt z)).
      split; [apply (wrap_scalar_open (S d + f) s (PInt z)); auto|].
      split; [reflexivity | reflexivity].
    + exists (wrapped_scalar (PSchema s false NoOpValidatorCls) (PFloat q)).
      split; [apply (wrap_scalar_open (S d + f) s (PFloat q)); auto|].
      split; [reflexivity | reflexivity].
    + exists (wrapped_scalar (PSchema s false NoOpValidatorCls) (PStr s0)).
      split; [apply (wrap_scalar_open (S d + f) s (PStr s0)); auto|].
      split; [reflexivity | reflexivity].
    + (* list *)
      cbn [wrappable] in Hw. cbn [depth] in Hd.
      apply le_S_n in Hd. apply depth_children in Hd.
      rewrite forallb_forall in Hw.
      destruct (mapM_ok (fun i => wrap_meta_structure (5 + d + f) no_kwargs i any_schema)
                  (fun _ y => is_meta y = true) l) as (l' & Hl & HF).
      { rewrite Forall_forall in *. intros y Hy.
        destruct (IH y PAny f (or_intror eq_refl) (Hw y Hy) (Hd y Hy)) as (node & Hn & Hm & _).
        exists node. split; assumption. }
      assert (Hall : all_meta l').
      { clear -HF. induction HF; constructor; assumption. }
      eexists. split.
      * apply (wrap_seq_open (5 + d + f) s (PList l) l l' _ Hs (or_introl eq_refl) Hl).
        apply (container_new_list_open (2 + d + f) s l' Hall).
      * split; [reflexivity | discriminate].
    + (* tuple *)
      cbn [wrappable] in Hw. cbn [depth] in Hd.
      apply le_S_n in Hd. apply depth_children in Hd.
      rewrite forallb_forall in Hw.
      destruct (mapM_ok (fun i => wrap_meta_structure (5 + d + f) no_kwargs i any_schema)
                  (fun _ y => is_meta y = true) l) as (l' & Hl & HF).
      { rewrite Forall_forall in *. intros y Hy.
        destruct (IH y PAny f (or_intror eq_refl) (Hw y Hy) (Hd y Hy)) as (node & Hn & Hm & _).
        exists node. split; assumption. }
      eexists. split.
      * apply (wrap_seq_open (5 + d + f) s (PTuple l) l l' _ Hs (or_intror eq_refl) Hl).
        apply (container_new_tuple_open (4 + d + f) s l').
      * split; [reflexivity | discriminate].
    + (* set *)
      cbn [wrappable] in Hw. rewrite forallb_forall in Hw.
      destruct (mapM_ok (fun i => wrap_meta_structure (5 + d + f) no_kwargs i any_schema)
                  (fun _ y => scalar_node y = true) l) as (l' & Hl & HF).
      { rewrite Forall_forall. intros y Hy.
        exists (wrapped_scalar any_schema y). split.
        - apply (wrap_scalar_open (d + f) PAny y). left. apply Hw, Hy.
        - apply wrapped_scalar_node. apply Hw, Hy. }
      assert (Hall : Forall (fun x => scalar_node x = true) l').
      { clear -HF. induction HF; constructor; assumption. }
      destruct (set_of_items_ok l' Hall [] (Forall_nil _)) as (s' & Hs' & Hall').
      eexists. split.
      * apply (wrap_set_open (5 + d + f) s l l' s' _ Hs Hl Hs').
        apply (container_new_set_open (2 + d + f) s s' Hs Hall').
      * split; [reflexivity | discriminate].
    + (* dict *)
      cbn [wrappable] in Hw. cbn [depth] in Hd.
      apply le_S_n in Hd. apply depth_values in Hd.
      rewrite forallb_forall in Hw.
      destruct (wrap_items_ok (5 + d + f) l) with (out := @nil (obj * obj))
        as (wrapped & Hwr & Hok).
      { rewrite Forall_forall in *. intros kv Hkv.
        specialize (Hw kv Hkv). apply andb_prop in Hw as [Hk Hv].
        split; [exact Hk|].
        destruct (IH (snd kv) PAny f (or_intror eq_refl) Hv (Hd kv Hkv)) as (node & Hn & Hm & _).
        exists node. split; assumption. }
      { constructor. }
      eexists. split.
      * apply (wrap_dict_open (5 + d + f) s l wrapped _ Hs Hwr).
        apply (container_new_dict_open (3 + d + f) s wrapped Hs Hok).
      * split; [reflexivity | discriminate].
Qed.

Lemma as_schema_falsy (raw : obj) :
  truthy raw = false -> as_schema no_kwargs raw = Ok empty_schema.
Proof.
  intros H. destruct raw; try discriminate; unfold as_schema, Schema.__init__;
    rewrite H; reflexivity.
Qed.

Lemma wrap_falsy (g : nat) (x raw : obj) :
  truthy raw = false -> is_meta x = false ->
  wrap_meta_structure (S g) no_kwargs x raw =
  wrap_meta_structure (S g) no_kwargs x empty_schema.
Proof.
  intros Hr Hx. cbn [wrap_meta_structure]. rewrite Hx.
  rewrite (as_schema_falsy raw Hr). reflexivity.
Qed.

(** C10 (as the code has it): a Schema built from a falsy expression
    stores no schema and hands out the no-op validator, and under such a
    schema every plain value whose sets hold only bool, int, float and str
    is wrapped without any check; fuel 5 + depth suffices. *)
Theorem C10_falsy_schema_validates_nothing (raw x : obj) (f : nat) :
  truthy raw = false ->
  wrappable x = true ->
  Schema.new raw = Ok empty_schema /\
  build_validator empty_schema = Ok NoOpValidator /\
  exists node,
    wrap_meta_structure (5 + depth x + f) no_kwargs x raw = Ok node /\
    is_meta node = true.
Proof.
  intros Hr Hw.
  split; [|split].
  - unfold Schema.new, Schema.__init__. rewrite Hr. reflexivity.
  - reflexivity.
  - destruct (wrap_open_ok (depth x) x PNone f (or_introl eq_refl) Hw (le_n _))
      as (node & Hn & Hm & _).
    exists node. split; [|exact Hm].
    change (5 + depth x + f)%nat with (S (4 + depth x + f)).
    rewrite wrap_falsy; [exact Hn | exact Hr |].
    destruct x; try discriminate; reflexivity.
Qed.

Lemma C10_falsy_schema_validates_nothing_witness :
  Schema.new (PDict []) = Ok empty_schema /\
  build_validator empty_schema = Ok NoOpValidator /\
  exists node,
    wrap_meta_structure (5 + depth (PDict [(PStr "extra", PInt 1)]) + 0) no_kwargs
      (PDict [(PStr "extra", PInt 1)]) (PDict []) = Ok node /\
    is_meta node = true.
Proof.
  apply (C10_falsy_schema_validates_nothing (PDict []) (PDict [(PStr "extra", PInt 1)]) 0);
    reflexivity.
Defined.

(** C10 as stated fails: the set {None} is not wrapped under {}; the
    wrapped None cannot be hashed, so building the set raises TypeError. *)
Lemma C10_set_of_None_is_refused :
  wrap_meta_structure 10 no_kwargs (PSet [PNone]) (PDict []) =
  Raise (TypeError Unhashable).
Proof.
  vm_compute. reflexivity.
Qed.

(** The validator itself, handed {} directly, is closed-world: it refuses
    every key. *)
Lemma validator_on_empty_map_refuses (n : nat) (m : mixin) (k v : obj) (r : dict) :
  hashable k = true ->
  SchemaValidator.validate_all (S n) m (PDict []) (PDict ((k, v) :: r)) =
  Raise (TypeError KeyNotAllowed).
Proof.
  intros H. cbn [SchemaValidator.validate_all is_PNone isinstance_of pytype_eqb
                 iter_items bind map fst SchemaValidator.check_keys].
  unfold dict_contains. rewrite H. reflexivity.
Qed.

End FalsySchema.

Section NormalizerShape.

Ltac split_binds H :=
  repeat match type of H with
         | bind ?c _ = Ok _ =>
             let E := fresh "E" in
             destruct c eqn:E; cbn [bind] in H; [|discriminate H]
         | (let '(_, _) := ?p in _) = Ok _ => destruct p
         | match ?c with _ => _ end = Ok _ =>
             let E := fresh "E" in destruct c eqn:E; try discriminate H
         end.

(** The normaliser never returns a generic over dict. *)
Lemma normalized_is_no_typing_dict (raw s : obj) :
  Schema._normalize_schema raw = Ok s ->
  origin_is (get_origin s) t_dict = false.
Proof.
  intros H.
  destruct raw as [ | b | z | q | s0 | l | l | l | d | | t | | pep args
                  | origin args | sc v c | k sc v ];
    cbn [Schema._normalize_schema] in H;
    try (injection H as <-; reflexivity).
  - split_binds H. injection H as <-. reflexivity.
  - split_binds H. injection H as <-. reflexivity.
  - destruct origin; split_binds H; injection H as <-; reflexivity.
Qed.

(** X1: whatever the normaliser returns carries no typing origin at its
    top: it is never a Union and never a generic over dict, list, set or
    tuple. *)
Theorem normalized_has_no_typing_origin (raw s : obj) :
  Schema._normalize_schema raw = Ok s ->
  has_typing_origin s = false.
Proof.
  intros H.
  destruct raw as [ | b | z | q | s0 | l | l | l | d | | t | | pep args
                  | origin args | sc v c | k sc v ];
    cbn [Schema._normalize_schema] in H;
    try (injection H as <-; reflexivity).
  - (* an explicit dict *)
    split_binds H. injection H as <-. reflexivity.
  - (* a union *)
    split_binds H. injection H as <-. reflexivity.
  - (* a generic *)
    destruct origin; split_binds H; injection H as <-; reflexivity.
Qed.

Lemma normalized_has_no_typing_origin_witness :
  has_typing_origin (PDict [(PTuple [py_int], py_str)]) = false.
Proof.
  apply (normalized_has_no_typing_origin (Dict_ (Optional_ py_int) py_str)).
  reflexivity.
Defined.

End NormalizerShape.

Section DeadCoercion.

(** X2: for every Schema object the constructor builds, the key-coercion
    hooks the wrapper calls change nothing: [Schema.coerce_key] returns the
    key, [coerce_dict_keys] returns the data and [_coerce_key_type] of a
    node holding that schema returns the key.  They all test for a typing
    Dict origin, which normalisation never leaves at the top. *)
Theorem coercion_hooks_are_identity (raw : obj) (cls : vcls) (validate : option bool)
  (S0 k data : obj) :
  Schema.__init__ raw cls validate = Ok S0 ->
  Schema.coerce_key py_call S0 k = Ok k /\
  meta_core.coerce_dict_keys (schema_attr S0) data = Ok data /\
  meta_core._coerce_key_type S0 k = Ok k.
Proof.
  intros H. unfold Schema.__init__ in H.
  destruct (truthy raw).
  - destruct (Schema._normalize_schema raw) as [s|] eqn:E; [|discriminate H].
    cbn [bind] in H. injection H as <-.
    pose proof (normalized_is_no_typing_dict raw s E) as Hs.
    destruct s; try (repeat split; reflexivity).
    destruct origin; try discriminate Hs; repeat split; reflexivity.
  - cbn [bind] in H. injection H as <-. repeat split; reflexivity.
Qed.

Lemma coercion_hooks_are_identity_witness :
  Schema.coerce_key py_call (PSchema (PDict [(py_int, py_str)]) true SchemaValidatorCls)
    (PStr "1") = Ok (PStr "1") /\
  meta_core.coerce_dict_keys
    (schema_attr (PSchema (PDict [(py_int, py_str)]) true SchemaValidatorCls))
    (PDict [(PStr "1", PStr "a")]) = Ok (PDict [(PStr "1", PStr "a")]) /\
  meta_core._coerce_key_type (PSchema (PDict [(py_int, py_str)]) true SchemaValidatorCls)
    (PStr "1") = Ok (PStr "1").
Proof.
  apply (coercion_hooks_are_identity (Dict_ py_int py_str) SchemaValidatorCls None).
  reflexivity.
Defined.

End DeadCoercion.

Section MapResolver.

Lemma resolve_by_type_none (key : obj) (items : dict) :
  forallb pattern_well_formed (map fst items) = true ->
  (forall p, In p (map fst items) -> type_pattern_accepts p key = false) ->
  Schema.resolve_by_type key items = Ok PNone.
Proof.
  induction items as [|[p v] r IH]; intros Hwf Hno; [reflexivity|].
  cbn [map fst forallb] in Hwf. apply andb_prop in Hwf as [Hp Hr].
  assert (Hpk : type_pattern_accepts p key = false) by (apply Hno; left; reflexivity).
  assert (IH' : Schema.resolve_by_type key r = Ok PNone).
  { apply IH; [exact Hr | intros q Hq; apply Hno; right; exact Hq]. }
  destruct p; cbn [Schema.resolve_by_type]; try exact IH'.
  - cbn [pattern_well_formed] in Hp. cbn [type_pattern_accepts] in Hpk.
    rewrite (any_isinstance_classes key l Hp), Hpk. cbn [bind]. exact IH'.
  - cbn [type_pattern_accepts class_accepts] in Hpk. rewrite Hpk. exact IH'.
Qed.

(** X3: the resolver is open-world on maps: a key that no declared
    pattern accepts resolves to the schema of Any, and nothing is raised
    (the validator refuses the same key, see C3).  No declared key is
    typing.Any itself: where the interpreter takes Any for a class, the
    [isinstance] test against it raises. *)
Theorem resolver_falls_back_to_Any (items : dict) (validate : bool) (cls : vcls)
  (key value : obj) (level : Z) :
  hashable key = true ->
  forallb pattern_well_formed (map fst items) = true ->
  forallb (fun p => negb (is_PAny p)) (map fst items) = true ->
  (forall p, In p (map fst items) -> pattern_accepts p key = false) ->
  Schema.resolve_from (PSchema (PDict items) validate cls) key value level =
    Ok (PSchema PAny validate cls).
Proof.
  intros Hk Hwf _ Hno.
  cbn [Schema.resolve_from Schema.sub_schema_raw]. unfold dict_contains. rewrite Hk.
  cbn [bind].
  rewrite dict_get_none.
  - rewrite resolve_by_type_none; [destruct cls; reflexivity | exact Hwf |].
    intros p Hp. specialize (Hno p Hp). unfold pattern_accepts in Hno.
    apply orb_false_elim in Hno as [_ Ht]. destruct p; try reflexivity; exact Ht.
  - intros p Hp. specialize (Hno p Hp). unfold pattern_accepts in Hno.
    apply orb_false_elim in Hno as [He _]. exact He.
Qed.

Lemma resolver_falls_back_to_Any_witness :
  Schema.resolve_from (PSchema (PDict [(PStr "name", py_str)]) true SchemaValidatorCls)
    (PStr "extra") (PInt 7) 0 = Ok (PSchema PAny true SchemaValidatorCls).
Proof.
  apply (resolver_falls_back_to_Any [(PStr "name", py_str)] true SchemaValidatorCls
           (PStr "extra") (PInt 7) 0).
  - reflexivity.
  - reflexivity.
  - reflexivity.
  - intros p [<- | []]. reflexivity.
Defined.




Lemma resolve_schema_loop (key : obj) (items : dict) :
  (r <- meta_core.resolve_schema_by_type key items ;;
   match r with
   | Some v => Ok v
   | None => Ok PNone
   end) = Schema.resolve_by_type key items.
Proof.
  induction items as [|[p v] r IH]; [reflexivity|].
  destruct p; cbn [meta_core.resolve_schema_by_type Schema.resolve_by_type]; try exact IH.
  - destruct (any_isinstance key l) as [[|]|]; cbn [bind]; [reflexivity | exact IH | reflexivity].
  - destruct (isinstance_of key t); [reflexivity | exact IH].
Qed.

(** X5: the three places that pick the field of a key agree.  The
    mutation path ([MetaContainer.resolve_schema]) returns exactly what the
    construction path ([resolve_from]) resolves; whatever the validator's
    [schema_for] returns is what the resolver returns; and where
    [schema_for] raises "not allowed" the resolver finds no field (and so
    falls back to Any). *)
Theorem field_resolvers_agree (items : dict) (validate : bool) (cls : vcls)
  (key : obj) (level : Z) :
  meta_core.resolve_schema (PSchema (PDict items) validate cls) key =
    Schema.sub_schema_raw (PDict items) key level /\
  (forall v, SchemaValidator.schema_for (PDict items) key = Ok v ->
             Schema.sub_schema_raw (PDict items) key level = Ok v) /\
  (SchemaValidator.schema_for (PDict items) key = Raise (TypeError KeyNotAllowed) ->
   Schema.sub_schema_raw (PDict items) key level = Ok PNone).
Proof.
  split; [|split].
  - cbn [meta_core.resolve_schema meta_core._coerce_key_type bind Schema.sub_schema_raw].
    destruct (dict_contains key items) as [[|]|]; cbn [bind]; try reflexivity.
    apply resolve_schema_loop.
  - intros v H.
    cbn [SchemaValidator.schema_for Schema.sub_schema_raw] in *.
    destruct (dict_contains key items) as [[|]|]; cbn [bind] in *; try exact H;
      try discriminate H.
    revert H. clear. induction items as [|[p w] r IH]; intros H; [discriminate H|].
    destruct p; cbn [Schema.resolve_by_type]; try (apply IH; exact H).
    + destruct (any_isinstance key l) as [[|]|]; cbn [bind] in *;
        [exact H | apply IH; exact H | discriminate H].
    + destruct (isinstance_of key t); [exact H | apply IH; exact H].
  - intros H.
    cbn [SchemaValidator.schema_for Schema.sub_schema_raw] in *.
    destruct (dict_contains key items) as [[|]|] eqn:E; cbn [bind] in *.
    + destruct (dict_get key items); discriminate H.
    + revert H. clear. induction items as [|[p w] r IH]; intros H; [reflexivity|].
      destruct p; cbn [Schema.resolve_by_type]; try (apply IH; exact H).
      * destruct (any_isinstance key l) as [[|]|] eqn:Ea; cbn [bind] in *;
          [discriminate H | apply IH; exact H |].
        exfalso. clear IH. revert Ea H. clear.
        induction l as [|t ts IHl]; cbn [any_isinstance]; [discriminate|].
        destruct t; cbn [isinstance bind]; try (intros Ea H; injection Ea as <-; discriminate H).
        destruct (isinstance_of key t); [discriminate | exact IHl].
      * destruct (isinstance_of key t); [discriminate H | apply IH; exact H].
    + exfalso. unfold dict_contains in E. destruct (hashable key); [discriminate E|].
      injection E as <-. discriminate H.
Qed.

Lemma field_resolvers_agree_witness :
  meta_core.resolve_schema (PSchema (PDict [(py_str, py_int)]) true SchemaValidatorCls)
    (PStr "a") = Ok py_int /\
  Schema.sub_schema_raw (PDict [(py_str, py_int)]) (PStr "a") 0 = Ok py_int /\
  Schema.sub_schema_raw (PDict [(py_str, py_int)]) (PInt 3) 0 = Ok PNone.
Proof.
  destruct (field_resolvers_agree [(py_str, py_int)] true SchemaValidatorCls (PStr "a") 0)
    as (H1 & H2 & _).
  destruct (field_resolvers_agree [(py_str, py_int)] true SchemaValidatorCls (PInt 3) 0)
    as (_ & _ & H3).
  split; [rewrite H1; reflexivity|].
  split; [apply H2; reflexivity | apply H3; reflexivity].
Defined.

End MapResolver.

Section TupleResolver.

Lemma py_index_last (init : list obj) (x : obj) :
  py_index (init ++ [x]) (-1) = Ok x.
Proof.
  unfold py_index. rewrite length_app. cbn [List.length].
  replace (-1 <? 0) with true by reflexivity.
  replace (-1 + Z.of_nat (List.length init + 1)) with (Z.of_nat (List.length init)) by lia.
  replace (0 <=? Z.of_nat (List.length init)) with true by (symmetry; apply Z.leb_le; lia).
  replace (Z.of_nat (List.length init) <? Z.of_nat (List.length init + 1)) with true
    by (symmetry; apply Z.ltb_lt; lia).
  cbn [andb]. rewrite Nat2Z.id.
  rewrite nth_error_app2 by lia. rewrite Nat.sub_diag. reflexivity.
Qed.

Lemma py_index_in_range (l : list obj) (i : Z) :
  0 <= i < Z.of_nat (List.length l) ->
  py_index l i = Ok (nth (Z.to_nat i) l PNone).
Proof.
  intros H. unfold py_index.
  replace (i <? 0) with false by (symmetry; apply Z.ltb_ge; lia).
  replace (0 <=? i) with true by (symmetry; apply Z.leb_le; lia).
  replace (i <? Z.of_nat (List.length l)) with true by (symmetry; apply Z.ltb_lt; lia).
  cbn [andb].
  destruct (nth_error l (Z.to_nat i)) eqn:E.
  - rewrite (nth_error_nth _ _ _ E). reflexivity.
  - apply nth_error_None in E. lia.
Qed.

(** X6: positions of a tuple descriptor.  A variadic descriptor
    (item, ...) resolves every position to its first entry; a fixed one
    resolves a level inside it to the entry at that level and a level
    outside it to Any, raising nothing; the key is never looked at; the
    empty tuple descriptor makes the resolver raise IndexError. *)
Theorem tuple_positions (init : list obj) (x : obj) (validate : bool) (cls : vcls)
  (key value : obj) (level : Z) :
  let l := init ++ [x] in
  (is_Ellipsis x = true ->
   Schema.sub_schema_raw (PTuple l) key level = Ok (hd x init)) /\
  (is_Ellipsis x = false -> 0 <= level < Z.of_nat (List.length l) ->
   Schema.sub_schema_raw (PTuple l) key level = Ok (nth (Z.to_nat level) l PNone)) /\
  (is_Ellipsis x = false -> level < 0 \/ Z.of_nat (List.length l) <= level ->
   Schema.resolve_from (PSchema (PTuple l) validate cls) key value level =
     Ok (PSchema PAny validate cls)) /\
  Schema.resolve_from (PSchema (PTuple l) validate cls) key value level =
    Schema.resolve_from (PSchema (PTuple l) validate cls) PNone PNone level /\
  Schema.resolve_from (PSchema (PTuple []) validate cls) key value level =
    Raise IndexError.
Proof.
  cbv zeta. repeat apply conj.
  - intros Hx. cbn [Schema.sub_schema_raw]. rewrite py_index_last. cbn [bind].
    rewrite Hx. destruct init; reflexivity.
  - intros Hx Hl. cbn [Schema.sub_schema_raw]. rewrite py_index_last. cbn [bind].
    rewrite Hx.
    replace (0 <=? level) with true by (symmetry; apply Z.leb_le; lia).
    replace (level <? Z.of_nat (List.length (init ++ [x]))) with true
      by (symmetry; apply Z.ltb_lt; lia).
    cbn [andb]. apply py_index_in_range. exact Hl.
  - intros Hx Hl. cbn [Schema.resolve_from Schema.sub_schema_raw].
    rewrite py_index_last. cbn [bind]. rewrite Hx.
    replace ((0 <=? level) && (level <? Z.of_nat (List.length (init ++ [x])))) with false.
    + destruct cls; reflexivity.
    + symmetry. apply andb_false_iff. destruct Hl as [Hl | Hl].
      * left. apply Z.leb_gt. exact Hl.
      * right. apply Z.ltb_ge. exact Hl.
  - reflexivity.
  - reflexivity.
Qed.

Lemma tuple_positions_witness :
  Schema.sub_schema_raw (PTuple ([py_int] ++ [PEllipsis])) PNone 5 = Ok py_int /\
  Schema.sub_schema_raw (PTuple ([py_int] ++ [py_str])) PNone 1 = Ok py_str /\
  Schema.resolve_from (PSchema (PTuple ([py_int] ++ [py_str])) true SchemaValidatorCls)
    PNone PNone 2 = Ok (PSchema PAny true SchemaValidatorCls).
Proof.
  destruct (tuple_positions [py_int] PEllipsis true SchemaValidatorCls PNone PNone 5)
    as (H1 & _).
  destruct (tuple_positions [py_int] py_str true SchemaValidatorCls PNone PNone 1)
    as (_ & H2 & _).
  destruct (tuple_positions [py_int] py_str true SchemaValidatorCls PNone PNone 2)
    as (_ & _ & H3 & _).
  split; [apply H1; reflexivity|].
  split; [apply H2; [reflexivity | cbn; lia] | apply H3; [reflexivity | right; cbn; lia]].
Defined.

End TupleResolver.


Section ValidatorEdges.

(** X7: a fixed-length tuple type enforces its arity on both paths of the
    validator.  A plain tuple of another length is refused by
    [validate_all] (the type does not match); on the recursive path
    ([validate_recursive], taken for nodes) a tuple of another length is
    refused with the arity message and a value that is no tuple with
    "expected tuple". *)
Theorem fixed_tuple_arity (f : nat) (m : mixin) (self : obj) (key_path : res obj)
  (args items : list obj) (value : obj) :
  is_Ellipsis (last args PNone) = false ->
  List.length args <> List.length items ->
  SchemaValidator.validate_all (S (S f)) m (PGeneric t_tuple args) (PTuple items) =
    Raise (TypeError ExpectedType) /\
  (isinstance_of value t_tuple = true -> iter_items value = Ok items ->
   SchemaValidator.validate_recursive (S (S f)) m self key_path value
     (PGeneric t_tuple args) = Raise (TypeError TupleArity)) /\
  (isinstance_of value t_tuple = false ->
   SchemaValidator.validate_recursive (S (S f)) m self key_path value
     (PGeneric t_tuple args) = Raise (TypeError ExpectedTuple)).
Proof.
  intros He Hl.
  assert (Hn : Nat.eqb (List.length args) (List.length items) = false)
    by (apply Nat.eqb_neq; exact Hl).
  split; [|split].
  - cbn [SchemaValidator.validate_all SchemaValidator._validate_native is_PNone
         isinstance_mixin is_union get_origin bind SchemaValidator.type_check
         is_PAny orb helpers.is_type_match isinstance_of pytype_eqb negb iter_items
         to_native].
    destruct m; cbn [isinstance_mixin bind isinstance_of pytype_eqb negb iter_items];
      rewrite He, Hn; reflexivity.
  - intros Ht Hi.
    cbn [SchemaValidator.validate_recursive SchemaValidator.validate_tuple is_PNone
         get_origin origin_is pytype_eqb isinstance_of orb bind get_args].
    rewrite Ht, Hi. cbn [negb bind]. rewrite He, Hn. reflexivity.
  - intros Ht.
    cbn [SchemaValidator.validate_recursive SchemaValidator.validate_tuple is_PNone
         get_origin origin_is pytype_eqb isinstance_of orb bind get_args].
    rewrite Ht. reflexivity.
Qed.

Lemma fixed_tuple_arity_witness :
  SchemaValidator.validate_all 2 MetaNodeMixin (PGeneric t_tuple [py_int; py_str])
    (PTuple [PInt 1; PStr "a"; PStr "b"]) = Raise (TypeError ExpectedType) /\
  SchemaValidator.validate_recursive 2 MetaNodeMixin PNone (Ok (PStr "value"))
    (PTuple [PInt 1; PStr "a"; PStr "b"]) (PGeneric t_tuple [py_int; py_str]) =
    Raise (TypeError TupleArity) /\
  SchemaValidator.validate_recursive 2 MetaNodeMixin PNone (Ok (PStr "value"))
    (PList [PInt 1; PStr "a"]) (PGeneric t_tuple [py_int; py_str]) =
    Raise (TypeError ExpectedTuple).
Proof.
  assert (Hl : List.length [py_int; py_str] <> List.length [PInt 1; PStr "a"; PStr "b"])
    by (cbn; lia).
  destruct (fixed_tuple_arity 0 MetaNodeMixin PNone (Ok (PStr "value"))
              [py_int; py_str] [PInt 1; PStr "a"; PStr "b"]
              (PTuple [PInt 1; PStr "a"; PStr "b"]) eq_refl Hl) as (H1 & H2 & _).
  destruct (fixed_tuple_arity 0 MetaNodeMixin PNone (Ok (PStr "value"))
              [py_int; py_str] [PInt 1; PStr "a"; PStr "b"]
              (PList [PInt 1; PStr "a"]) eq_refl Hl) as (_ & _ & H3).
  split; [exact H1|].
  split; [apply H2; reflexivity | apply H3; reflexivity].
Defined.

(** X8: a union with one member left is validated as a set.  Optional[T]
    normalises to the one-element set {T'}, which [type_check] reads as
    "a set of T'": every value that is no set is refused with "expected a
    set", and a set whose members are instances of the class T' passes. *)
Theorem optional_is_checked_as_set (f : nat) (m : mixin) (pep : bool) (t n v : obj) :
  is_NoneType t = false ->
  Schema._normalize_schema t = Ok n ->
  hashable n = true ->
  (is_meta v = false -> isinstance_of v t_set = false ->
   bind (Schema._normalize_schema (PUnion pep [t; py_NoneType]))
        (fun s => SchemaValidator.validate_all (S (S f)) m s v) =
     Raise (TypeError ExpectedSet)) /\
  (forall c items,
      n = PType c ->
      forallb (fun i => negb (is_meta i) && isinstance_of i c) items = true ->
      bind (Schema._normalize_schema (PUnion pep [t; py_NoneType]))
           (fun s => SchemaValidator.validate_all (S (S f)) m s (PSet items)) = Ok tt).
Proof.
  intros Ht Hn Hh.
  assert (E : Schema._normalize_schema (PUnion pep [t; py_NoneType]) = Ok (PSet [n])).
  { cbn [Schema._normalize_schema py_NoneType is_NoneType].
    rewrite Ht, Hn. cbn [bind]. unfold set_add. rewrite Hh. reflexivity. }
  rewrite E. cbn [bind].
  split.
  - intros Hm Hs.
    assert (Hmx : isinstance_mixin m v = false)
      by (destruct m, v; try reflexivity; discriminate Hm).
    cbn [SchemaValidator.validate_all SchemaValidator._validate_native is_PNone
         is_union get_origin bind SchemaValidator.type_check is_PAny orb].
    rewrite Hmx. cbn [bind]. rewrite ?Hmx. cbn [bind]. rewrite Hs. reflexivity.
  - intros c items -> Hall.
    cbn [SchemaValidator.validate_all SchemaValidator._validate_native is_PNone
         is_union get_origin bind SchemaValidator.type_check is_PAny orb
         isinstance_mixin isinstance_of pytype_eqb negb iter_items].
    destruct m; cbn [isinstance_mixin bind isinstance_of pytype_eqb negb iter_items];
      (induction items as [|i r IH]; [reflexivity|];
       cbn [forallb] in Hall; apply andb_prop in Hall as [Hi Hr];
       apply andb_prop in Hi as [Hi1 Hi2]; apply negb_true_iff in Hi1;
       cbn [forM_ SchemaValidator.type_check is_PNone is_PAny orb];
       destruct i; try discriminate Hi1;
       cbn [isinstance_mixin bind helpers.is_type_match to_native];
       rewrite Hi2; cbn [bind]; apply IH; exact Hr).
Qed.

Lemma optional_is_checked_as_set_witness :
  bind (Schema._normalize_schema (PUnion false [py_int; py_NoneType]))
       (fun s => SchemaValidator.validate_all 2 MetaNodeMixin s (PInt 5)) =
    Raise (TypeError ExpectedSet) /\
  bind (Schema._normalize_schema (PUnion false [py_int; py_NoneType]))
       (fun s => SchemaValidator.validate_all 2 MetaNodeMixin s (PSet [PInt 5])) = Ok tt.
Proof.
  destruct (optional_is_checked_as_set 0 MetaNodeMixin false py_int py_int (PInt 5)
              eq_refl eq_refl eq_refl) as (H1 & H2).
  split; [apply H1; reflexivity | apply (H2 t_int [PInt 5]); reflexivity].
Defined.

(** X9: the two spellings of "list of T" differ on the container kind.
    Against the typing generic List[T] the native path only walks the
    value, so a tuple or a set with the same items gets the verdict of the
    list; against the normalised form [T] every plain value that is no
    list is refused with "expected a list". *)
Theorem list_kind_is_checked_only_when_normalized (f : nat) (m : mixin) (t : obj)
  (items : list obj) (v : obj) :
  SchemaValidator.validate_all (S (S f)) m (List_ t) (PTuple items) =
    SchemaValidator.validate_all (S (S f)) m (List_ t) (PList items) /\
  SchemaValidator.validate_all (S (S f)) m (List_ t) (PSet items) =
    SchemaValidator.validate_all (S (S f)) m (List_ t) (PList items) /\
  (is_meta v = false -> isinstance_of v t_list = false ->
   SchemaValidator.validate_all (S (S f)) m (PList [t]) v =
     Raise (TypeError ExpectedList)).
Proof.
  split; [|split].
  - destruct m; reflexivity.
  - destruct m; reflexivity.
  - intros Hm Hl.
    assert (Hmx : isinstance_mixin m v = false)
      by (destruct m, v; try reflexivity; discriminate Hm).
    cbn [SchemaValidator.validate_all SchemaValidator._validate_native is_PNone
         is_union get_origin bind SchemaValidator.type_check is_PAny orb].
    rewrite Hmx. cbn [bind]. rewrite ?Hmx. cbn [bind]. rewrite Hl. reflexivity.
Qed.

Lemma list_kind_is_checked_only_when_normalized_witness :
  SchemaValidator.validate_all 2 MetaNodeMixin (PList [py_int]) (PTuple [PInt 1]) =
    Raise (TypeError ExpectedList).
Proof.
  destruct (list_kind_is_checked_only_when_normalized 0 MetaNodeMixin py_int []
              (PTuple [PInt 1])) as (_ & _ & H).
  apply H; reflexivity.
Defined.

End ValidatorEdges.

Section Defaults.

(** X10: the default of a typing Union is the default of its first member
    that is not NoneType, whatever follows it; a union of NoneType alone
    has the default None. *)
Theorem union_default_is_first_member (pre rest : list obj) (m : obj) :
  forallb is_NoneType pre = true ->
  (is_NoneType m = false ->
   meta_core.get_default_value_from_type (Union_ (pre ++ m :: rest)) =
     meta_core.get_default_value_from_type m) /\
  meta_core.get_default_value_from_type (Union_ pre) = Ok PNone.
Proof.
  intros Hpre. split.
  - intros Hm. unfold Union_. cbn [meta_core.get_default_value_from_type].
    induction pre as [|a r IH]; cbn [app].
    + rewrite Hm. reflexivity.
    + cbn [forallb] in Hpre. apply andb_prop in Hpre as [Ha Hr].
      rewrite Ha. apply IH. exact Hr.
  - unfold Union_. cbn [meta_core.get_default_value_from_type].
    induction pre as [|a r IH]; [reflexivity|].
    cbn [forallb] in Hpre. apply andb_prop in Hpre as [Ha Hr].
    rewrite Ha. apply IH. exact Hr.
Qed.

Lemma union_default_is_first_member_witness :
  meta_core.get_default_value_from_type (Union_ ([py_NoneType] ++ py_str :: [py_int])) =
    meta_core.get_default_value_from_type py_str /\
  meta_core.get_default_value_from_type (Union_ [py_NoneType]) = Ok PNone.
Proof.
  destruct (union_default_is_first_member [py_NoneType] [py_int] py_str eq_refl) as [H1 H2].
  split; [apply H1; reflexivity | exact H2].
Defined.

Lemma dict_get_set_same (k v : obj) (d : dict) :
  py_eq k k = true -> dict_get k (dict_set k v d) = Some v.
Proof.
  intros Hk. induction d as [|[k' v'] r IH]; cbn [dict_set dict_get].
  - rewrite Hk. reflexivity.
  - destruct (py_eq k' k) eqn:E; cbn [dict_get]; rewrite E; [reflexivity | exact IH].
Qed.

Lemma dict_get_set_present (k k2 v : obj) (d : dict) :
  dict_get k d <> None -> dict_get k (dict_set k2 v d) <> None.
Proof.
  induction d as [|[k' v'] r IH]; cbn [dict_set dict_get]; intros H; [contradiction|].
  destruct (py_eq k' k2); cbn [dict_get]; destruct (py_eq k' k); try discriminate;
    try exact H. apply IH. exact H.
Qed.

Lemma dict_get_set_kept (k k2 v cur : obj) (d : dict) :
  dict_get k d = Some cur ->
  (forall c2, dict_get k2 d = Some c2 -> c2 <> cur) ->
  dict_get k (dict_set k2 v d) = Some cur.
Proof.
  induction d as [|[k' v'] r IH]; cbn [dict_set dict_get]; intros H Hd; [discriminate H|].
  destruct (py_eq k' k2) eqn:E2; cbn [dict_get]; destruct (py_eq k' k) eqn:E.
  - injection H as <-. exfalso. apply (Hd v'); reflexivity.
  - exact H.
  - exact H.
  - apply IH; assumption.
Qed.

(** One round of the loop of [fill_missing_keys]: what the dict is after
    the schema entry (key, expected_type) was looked at. *)
Lemma fill_step_cases (key expected_type : obj) (data data1 : dict) :
  (present <- dict_contains key data ;;
   match dict_get key data with
   | Some cur =>
       if negb present || is_PNone cur then
         d <- helpers.get_default_from_type expected_type ;;
         dict_store key d data
       else
         match cur, expected_type with
         | PDict inner, PDict _ =>
             inner' <- fill_missing_keys expected_type inner ;;
             dict_store key (PDict inner') data
         | _, _ => Ok data
         end
   | None =>
       d <- helpers.get_default_from_type expected_type ;;
       dict_store key d data
   end) = Ok data1 ->
  (data1 = data /\ dict_get key data <> None) \/
  exists v, data1 = dict_set key v data /\
            (forall c2, dict_get key data = Some c2 ->
                        is_PNone c2 = true \/ exists i, c2 = PDict i).
Proof.
  unfold dict_contains, dict_store.
  destruct (hashable key); cbn [bind]; [|discriminate].
  destruct (dict_get key data) as [cur|] eqn:E; cbn [negb orb].
  - destruct (is_PNone cur) eqn:En.
    + destruct (helpers.get_default_from_type expected_type); cbn [bind]; [|discriminate].
      intros H. injection H as <-. right. eexists. split; [reflexivity|].
      intros c2 Hc. injection Hc as <-. left. exact En.
    + destruct cur; try (intros H; injection H as <-; left; split; [reflexivity | discriminate]).
      destruct expected_type;
        try (intros H; injection H as <-; left; split; [reflexivity | discriminate]).
      destruct (fill_missing_keys (PDict l0) l); cbn [bind]; [|discriminate].
      intros H. injection H as <-. right. eexists. split; [reflexivity|].
      intros c2 Hc. injection Hc as <-. right. eexists. reflexivity.
  - destruct (helpers.get_default_from_type expected_type); cbn [bind]; [|discriminate].
    intros H. injection H as <-. right. eexists. split; [reflexivity|].
    intros c2 Hc. discriminate Hc.
Qed.

(** Splits the hypothesis [H] on one round of the loop into the round
    ([Estep], in the form of [fill_step_cases]) and the rest of the loop. *)
Ltac fill_step H data1 Estep :=
  match type of H with
  | bind ?P _ = _ =>
      let pr := fresh "present" in
      let Ep := fresh "Ep" in
      destruct P as [pr|] eqn:Ep; cbn [bind] in H; [|discriminate H];
      match type of H with
      | bind ?M _ = _ =>
          let E := fresh "E" in
          destruct M as [data1|] eqn:E; cbn [bind] in H; [|discriminate H];
          match type of Ep with
          | ?P' = _ =>
              assert (Estep : bind P' (fun present => _) = Ok data1)
                by (rewrite Ep; cbn [bind]; exact E)
          end
      end
  end.

(** X11: after [fill_missing_keys] every declared literal key is in the
    data (type-pattern keys are skipped: a schema made of them alone
    leaves the data as it is).  The key typing.Any is left out of the
    statement: whether [isinstance(Any, type)] holds, and so whether that
    key is skipped, depends on the interpreter version. *)
Theorem fill_declares_every_literal_key (items data data' : dict) :
  fill_missing_keys (PDict items) data = Ok data' ->
  (forall k t, In (k, t) items -> is_class k = false -> is_PAny k = false ->
               py_eq k k = true -> dict_get k data' <> None) /\
  (forallb is_class (map fst items) = true -> data' = data).
Proof.
  cbn [fill_missing_keys]. revert data.
  induction items as [|[key expected_type] r IH]; intros data H.
  - injection H as <-. split; [intros k t []|reflexivity].
  - destruct (is_class key) eqn:Ec.
    + destruct (IH data H) as [IH1 IH2]. split.
      * intros k t [Hin | Hin] Hk Ha Hr.
        -- injection Hin as -> ->. rewrite Hk in Ec. discriminate.
        -- apply (IH1 k t Hin Hk Ha Hr).
      * intros Hall. apply IH2. cbn [map fst forallb] in Hall.
        apply andb_prop in Hall as [_ Hall]. exact Hall.
    + fill_step H data1 Estep.
      destruct (IH data1 H) as [IH1 IH2]. split.
      * intros k t [Hin | Hin] Hk Ha Hr; [|apply (IH1 k t Hin Hk Ha Hr)].
        injection Hin as -> ->.
        assert (Hp : dict_get k data1 <> None).
        { destruct (fill_step_cases k t data data1 Estep) as [[-> Hp] | (v & -> & _)].
          - exact Hp.
          - rewrite (dict_get_set_same k v data Hr). discriminate. }
        clear -H Hp. revert data1 H Hp.
        induction r as [|[key2 t2] r IHr]; intros data1 H Hp.
        -- injection H as <-. exact Hp.
        -- destruct (is_class key2); [apply (IHr data1 H Hp)|].
           fill_step H data2 Estep.
           apply (IHr data2 H).
           destruct (fill_step_cases key2 t2 data1 data2 Estep) as [[-> _] | (v & -> & _)];
             [exact Hp | apply dict_get_set_present; exact Hp].
      * intros Hall. cbn [map fst forallb] in Hall. rewrite Ec in Hall. discriminate Hall.
Qed.

Lemma fill_declares_every_literal_key_witness :
  dict_get (PStr "count") [(PStr "count", PInt 0)] <> None.
Proof.
  destruct (fill_declares_every_literal_key [(PStr "count", py_int)] []
              [(PStr "count", PInt 0)] eq_refl) as [H _].
  apply (H (PStr "count") py_int);
    [left; reflexivity | reflexivity | reflexivity | reflexivity].
Defined.

(** X12: [fill_missing_keys] never overwrites what is there: an entry of
    the data whose value is neither None nor a dict has the same value
    afterwards, whichever keys the schema declares. *)
Theorem fill_keeps_existing_values (items data data' : dict) (k cur : obj) :
  fill_missing_keys (PDict items) data = Ok data' ->
  dict_get k data = Some cur ->
  is_PNone cur = false ->
  isinstance_of cur t_dict = false ->
  dict_get k data' = Some cur.
Proof.
  cbn [fill_missing_keys]. intros H Hget Hn Hd. revert data H Hget.
  induction items as [|[key expected_type] r IH]; intros data H Hget.
  - injection H as <-. exact Hget.
  - destruct (is_class key); [apply (IH data H Hget)|].
    fill_step H data1 Estep.
    apply (IH data1 H).
    destruct (fill_step_cases key expected_type data data1 Estep) as [[-> _] | (v & -> & Hc)];
      [exact Hget|].
    apply dict_get_set_kept; [exact Hget|].
    intros c2 Hc2 ->. destruct (Hc cur Hc2) as [Hnone | (i & ->)].
    + rewrite Hnone in Hn. discriminate Hn.
    + discriminate Hd.
Qed.

Lemma fill_keeps_existing_values_witness :
  dict_get (PStr "count") [(PStr "count", PInt 7); (PStr "name", PStr "")] = Some (PInt 7).
Proof.
  apply (fill_keeps_existing_values
           [(PStr "count", py_int); (PStr "name", py_str)]
           [(PStr "count", PInt 7)]
           [(PStr "count", PInt 7); (PStr "name", PStr "")]
           (PStr "count") (PInt 7)); reflexivity.
Defined.

End Defaults.

Section DataNormalizer.

Lemma mapM_length {A B} (g : A -> res B) (l : list A) (l' : list B) :
  mapM g l = Ok l' -> List.length l' = List.length l.
Proof.
  revert l'. induction l as [|a r IH]; cbn [mapM]; intros l' H.
  - injection H as <-. reflexivity.
  - destruct (g a); cbn [bind] in H; [|discriminate H].
    destruct (mapM g r); cbn [bind] in H; [|discriminate H].
    injection H as <-. cbn [List.length]. f_equal. apply IH. reflexivity.
Qed.

(** X13: what [normalize_data] does to the length of a sequence.  Under a
    list schema [T] a list keeps its length.  Under a fixed tuple schema
    the items are paired with the schema entries position by position, so
    the result has the length of the shorter of the two: items beyond the
    schema are dropped without an error.  Under the variadic tuple schema
    (T, ...) the length is kept. *)
Theorem normalize_data_lengths (ts items : list obj) (t data r : obj) :
  iter_items data = Ok items ->
  (isinstance_of data t_list = true ->
   helpers.normalize_data (PList [t]) data = Ok r ->
   exists l, r = PList l /\ List.length l = List.length items) /\
  (helpers.normalize_data (PTuple [t; PEllipsis]) data = Ok r ->
   exists l, r = PTuple l /\ List.length l = List.length items) /\
  (match ts with [_; PEllipsis] => False | _ => True end ->
   helpers.normalize_data (PTuple ts) data = Ok r ->
   exists l, r = PTuple l /\
             List.length l = Nat.min (List.length items) (List.length ts)).
Proof.
  intros Hi. split; [|split].
  - intros Hl H. cbn [helpers.normalize_data] in H. rewrite Hl, Hi in H. cbn [bind] in H.
    destruct (mapM (helpers.normalize_data t) items) as [l|] eqn:E; cbn [bind] in H;
      [|discriminate H].
    injection H as <-. exists l. split; [reflexivity | apply (mapM_length _ _ _ E)].
  - intros H. cbn [helpers.normalize_data] in H. rewrite Hi in H. cbn [bind] in H.
    destruct (mapM (helpers.normalize_data t) items) as [l|] eqn:E; cbn [bind] in H;
      [|discriminate H].
    injection H as <-. exists l. split; [reflexivity | apply (mapM_length _ _ _ E)].
  - intros Hv H.
    assert (G : forall (vs us : list obj) (l : list obj),
               (fix go (vs ts : list obj) {struct ts} : res (list obj) :=
                  match vs, ts with
                  | v :: vs', t :: ts' =>
                      n <- helpers.normalize_data t v ;; ns <- go vs' ts' ;; Ok (n :: ns)
                  | _, _ => Ok []
                  end) vs us = Ok l ->
               List.length l = Nat.min (List.length vs) (List.length us)).
    { intros vs us. revert vs. induction us as [|u us IH]; intros vs l G.
      - destruct vs; injection G as <-; cbn; lia.
      - destruct vs as [|v vs]; [injection G as <-; reflexivity|].
        destruct (helpers.normalize_data u v); cbn [bind] in G; [|discriminate G].
        match type of G with
        | bind ?c _ = _ => destruct c as [ns|] eqn:E; cbn [bind] in G; [|discriminate G]
        end.
        injection G as <-. cbn [List.length Nat.min]. f_equal. apply IH. exact E. }
    cbn [helpers.normalize_data] in H. rewrite Hi in H. cbn [bind] in H.
    destruct ts as [|a [|b [|c ts]]];
      try (destruct b; try contradiction);
      match type of H with
      | bind ?c _ = _ =>
          let rl := fresh "rl" in
          destruct c as [rl|] eqn:E; cbn [bind] in H; [|discriminate H];
          injection H as <-; exists rl; (split; [reflexivity | apply G; exact E])
      end.
Qed.

Lemma normalize_data_lengths_witness :
  exists l, PTuple [PInt 1; PInt 2] = PTuple l /\
            List.length l =
            Nat.min (List.length [PInt 1; PInt 2; PInt 3]) (List.length [py_int; py_int]).
Proof.
  destruct (normalize_data_lengths [py_int; py_int] [PInt 1; PInt 2; PInt 3] py_int
              (PTuple [PInt 1; PInt 2; PInt 3]) (PTuple [PInt 1; PInt 2]) eq_refl)
    as (_ & _ & H).
  apply H; [exact I | reflexivity].
Defined.

End DataNormalizer.

Section Mutation.

Import meta_core.

(** X14: [add] on a dict node or a list node is all or nothing: when it
    raises, the node is what it was before the call; when a one-argument
    [add] on a list node returns, exactly one node was appended. *)
Theorem add_is_all_or_nothing (fuel : nat) (schema : obj) (d : dict) (l : list obj)
  (args : list obj) (v : obj) :
  (forall e, fst (MetaContainer_add fuel (PMeta MetaDict schema (PDict d)) args) = Raise e ->
             snd (MetaContainer_add fuel (PMeta MetaDict schema (PDict d)) args) =
               PMeta MetaDict schema (PDict d)) /\
  (forall e, fst (MetaContainer_add fuel (PMeta MetaList schema (PList l)) args) = Raise e ->
             snd (MetaContainer_add fuel (PMeta MetaList schema (PList l)) args) =
               PMeta MetaList schema (PList l)) /\
  (forall r, fst (MetaContainer_add fuel (PMeta MetaList schema (PList l)) [v]) = Ok r ->
             exists val, snd (MetaContainer_add fuel (PMeta MetaList schema (PList l)) [v]) =
                           PMeta MetaList schema (PList (l ++ [val]))).
Proof.
  assert (Hchain : forall (val self' : obj) e,
             fst (if is_meta val &&
                     (isinstance_of val t_dict || isinstance_of val t_list ||
                      isinstance_of val t_set)
                  then (Ok val, self') else (Ok self', self')) = Raise e -> False).
  { intros val self' e. destruct (_ && _); discriminate. }
  destruct fuel as [|f]; [repeat split; intros; try reflexivity; discriminate|].
  split; [|split].
  - intros e. cbn [MetaContainer_add].
    destruct args as [|a args]; [reflexivity|].
    repeat match goal with
           | |- context [match ?c with Ok _ => _ | Raise _ => _ end] =>
               destruct c as [[? ?]|]; try reflexivity
           end.
    intros H. exfalso. eapply Hchain. exact H.
  - intros e. cbn [MetaContainer_add].
    destruct args as [|a [|b [|c args]]]; try reflexivity.
    + destruct (_ <- _ ;; _) as [val|]; [|reflexivity].
      intros H. exfalso. eapply Hchain. exact H.
    + destruct (_ <- _ ;; _) as [val|]; [|reflexivity].
      intros H. exfalso.
      destruct (int_value a); [eapply Hchain; exact H|].
      destruct (_ && _); [|eapply Hchain; exact H].
      destruct (existsb _ l); [eapply Hchain; exact H|].
      destruct (find_index _ l 0); eapply Hchain; exact H.
  - intros r. cbn [MetaContainer_add].
    destruct (_ <- _ ;; _) as [val|]; [|discriminate].
    intros _. exists val. destruct (_ && _); reflexivity.
Qed.

Lemma add_is_all_or_nothing_witness :
  snd (MetaContainer_add 8 (PMeta MetaDict empty_schema (PDict [])) [PList []; PInt 1]) =
    PMeta MetaDict empty_schema (PDict []).
Proof.
  destruct (add_is_all_or_nothing 8 empty_schema [] [] [PList []; PInt 1] PNone) as (H & _).
  apply (H (TypeError Unhashable)). reflexivity.
Defined.

(** X15: no bool can be wrapped once a keyword argument is passed on:
    [wrap_meta_structure] hands its keywords to the node class, and
    MetaBool takes none, so the call raises TypeError. *)
Theorem bool_is_not_wrapped_under_keywords (f : nat) (kw : kwargs) (b : bool)
  (schema S0 : obj) :
  kwargs_empty kw = false ->
  as_schema kw schema = Ok S0 ->
  wrap_meta_structure (S f) kw (PBool b) schema = Raise (TypeError BadArguments).
Proof.
  intros Hk Hs. cbn [wrap_meta_structure is_meta]. rewrite Hs. cbn [bind].
  unfold MetaBool_new. rewrite Hk. reflexivity.
Qed.

Lemma bool_is_not_wrapped_under_keywords_witness :
  wrap_meta_structure 1 {| kw_fill_defaults := Some true; kw_validate := None |}
    (PBool true) (PType t_bool) = Raise (TypeError BadArguments).
Proof.
  apply (bool_is_not_wrapped_under_keywords 0
           {| kw_fill_defaults := Some true; kw_validate := None |} true (PType t_bool)
           (PSchema (PType t_bool) false SchemaValidatorCls)); reflexivity.
Defined.

End Mutation.

Section RoundTrip.

Import meta_core.

Lemma scalar_key_refl (k : obj) : scalar_key k = true -> py_eq k k = true.
Proof.
  destruct k; try discriminate; intros _; unfold py_eq; cbn [strip eqv num_of].
  - reflexivity.
  - apply Qeq_bool_iff. reflexivity.
  - apply Qeq_bool_iff. reflexivity.
  - apply Qeq_bool_iff. reflexivity.
  - apply String.eqb_refl.
Qed.

Lemma scalar_key_hashable (k : obj) : scalar_key k = true -> hashable k = true.
Proof. destruct k; try discriminate; reflexivity. Qed.

Lemma dict_set_fresh (k v : obj) (acc : dict) :
  existsb (fun k' => py_eq k' k) (map fst acc) = false ->
  dict_set k v acc = acc ++ [(k, v)].
Proof.
  induction acc as [|[k' v'] r IH]; cbn [map fst existsb dict_set app]; intros H;
    [reflexivity|].
  apply orb_false_elim in H as [H1 H2]. rewrite H1. f_equal. apply IH. exact H2.
Qed.

(** Storing the entries of a dict whose keys are fresh one after the
    other appends them in order. *)
Lemma dict_of_items_fresh (d acc : dict) :
  forallb (fun kv => hashable (fst kv)) d = true ->
  fresh_keys (map fst acc) (map fst d) = true ->
  dict_of_items d acc = Ok (acc ++ d) /\ dict_rebuild d acc = acc ++ d.
Proof.
  revert acc. induction d as [|[k v] r IH]; intros acc Hh Hf.
  - rewrite app_nil_r. split; reflexivity.
  - cbn [forallb fst] in Hh. apply andb_prop in Hh as [Hk Hr].
    cbn [map fst fresh_keys] in Hf. apply andb_prop in Hf as [Hn Hf].
    apply negb_true_iff in Hn.
    assert (Hf' : fresh_keys (map fst (acc ++ [(k, v)])) (map fst r) = true)
      by (rewrite map_app; exact Hf).
    destruct (IH (acc ++ [(k, v)]) Hr Hf') as [IH1 IH2].
    unfold dict_rebuild in *. cbn [dict_of_items fold_left fst snd].
    unfold dict_store. rewrite Hk. cbn [bind].
    rewrite (dict_set_fresh k v acc Hn), IH1, IH2, <- app_assoc. split; reflexivity.
Qed.

Lemma wrap_items_fresh (f : nat) (d acc : dict) :
  forallb (fun kv => hashable (fst kv)) d = true ->
  fresh_keys (map fst acc) (map fst d) = true ->
  Forall (fun kv => wrap_meta_structure f no_kwargs (snd kv) any_schema =
                      Ok (wrapped_plain any_schema (snd kv))) d ->
  wrap_items f d acc =
    Ok (acc ++ map (fun kv => (fst kv, wrapped_plain any_schema (snd kv))) d).
Proof.
  revert acc. induction d as [|[k v] r IH]; intros acc Hh Hf Hw.
  - rewrite app_nil_r. reflexivity.
  - cbn [forallb fst] in Hh. apply andb_prop in Hh as [Hk Hr].
    cbn [map fst fresh_keys] in Hf. apply andb_prop in Hf as [Hn Hf].
    apply negb_true_iff in Hn.
    inversion Hw as [|? ? Hv Hw']; subst. cbn [snd] in Hv.
    cbn [wrap_items]. rewrite Hv. cbn [bind]. unfold dict_store. rewrite Hk. cbn [bind].
    rewrite (dict_set_fresh k _ acc Hn).
    rewrite IH; [|exact Hr | rewrite map_app; exact Hf | exact Hw'].
    cbn [map fst snd]. rewrite <- app_assoc. reflexivity.
Qed.

Lemma wrapped_plain_meta (S0 x : obj) : is_meta (wrapped_plain S0 x) = true.
Proof. destruct x; reflexivity. Qed.

Lemma mapM_exact {A B} (g : A -> res B) (h : A -> B) (l : list A) :
  Forall (fun x => g x = Ok (h x)) l -> mapM g l = Ok (map h l).
Proof.
  induction 1 as [|x r Hx Hr IH]; [reflexivity|].
  cbn [mapM map]. rewrite Hx. cbn [bind]. rewrite IH. reflexivity.
Qed.

(** Wrapping plain data under an open schema gives exactly [wrapped_plain]. *)
Lemma wrap_plain_exact (d : nat) :
  forall (x s : obj) (f : nat),
    s = PNone \/ s = PAny ->
    roundtrippable x = true ->
    (depth x <= d)%nat ->
    wrap_meta_structure (5 + d + f) no_kwargs x (PSchema s false NoOpValidatorCls) =
      Ok (wrapped_plain (PSchema s false NoOpValidatorCls) x).
Proof.
  induction d as [|d IH]; intros x s f Hs Hr Hd.
  - assert (Hx : set_member x = true \/ x = PNone).
    { destruct x; try discriminate; cbn [depth] in Hd; try lia; auto. }
    change (5 + 0 + f)%nat with (S (S (S (S (S f))))).
    rewrite (wrap_scalar_open f s x Hx).
    destruct x; try reflexivity; destruct Hx as [Hx | Hx]; discriminate.
  - change (5 + S d + f)%nat with (S (5 + d + f)).
    destruct x; try discriminate.
    + apply (wrap_scalar_open (S d + f) s PNone). auto.
    + apply (wrap_scalar_open (S d + f) s (PBool b)). auto.
    + apply (wrap_scalar_open (S d + f) s (PInt z)). auto.
    + apply (wrap_scalar_open (S d + f) s (PFloat q)). auto.
    + apply (wrap_scalar_open (S d + f) s (PStr s0)). auto.
    + (* list *)
      cbn [roundtrippable] in Hr. cbn [depth] in Hd.
      apply le_S_n in Hd. apply depth_children in Hd.
      rewrite forallb_forall in Hr.
      apply (wrap_seq_open (5 + d + f) s (PList l) l
               (map (wrapped_plain any_schema) l) _ Hs (or_introl eq_refl)).
      * apply mapM_exact. rewrite Forall_forall in *. intros y Hy.
        apply (IH y PAny f (or_intror eq_refl) (Hr y Hy) (Hd y Hy)).
      * apply (container_new_list_open (2 + d + f) s).
        apply Forall_forall. intros y Hy. apply in_map_iff in Hy as (z & <- & _).
        apply wrapped_plain_meta.
    + (* dict *)
      cbn [roundtrippable] in Hr. apply andb_prop in Hr as [Hr Hf].
      cbn [depth] in Hd. apply le_S_n in Hd. apply depth_values in Hd.
      rewrite forallb_forall in Hr.
      assert (Hh : forallb (fun kv => hashable (fst kv)) l = true).
      { apply forallb_forall. intros kv Hkv. specialize (Hr kv Hkv).
        apply andb_prop in Hr as [Hk _]. apply scalar_key_hashable. exact Hk. }
      set (g := fun kv : obj * obj => (fst kv, wrapped_plain any_schema (snd kv))).
      assert (Hg : map fst (map g l) = map fst l).
      { rewrite map_map. apply map_ext. intros kv. reflexivity. }
      cbn [wrapped_plain]. fold g.
      apply (wrap_dict_open (5 + d + f) s l (map g l) _ Hs).
      * rewrite (wrap_items_fresh (5 + d + f) l [] Hh Hf); [reflexivity|].
        rewrite Forall_forall in *. intros kv Hkv. specialize (Hr kv Hkv).
        apply andb_prop in Hr as [_ Hv].
        apply (IH (snd kv) PAny f (or_intror eq_refl) Hv (Hd kv Hkv)).
      * change (5 + d + f)%nat with (S (S (3 + d + f))).
        rewrite (container_new_dict_open (3 + d + f) s (map g l) Hs).
        -- destruct (dict_of_items_fresh (map g l) []) as [_ E].
           ++ apply forallb_forall. intros kv Hkv. apply in_map_iff in Hkv as (z & <- & Hz).
              rewrite forallb_forall in Hh. apply (Hh z Hz).
           ++ cbn [map]. rewrite Hg. exact Hf.
           ++ rewrite E. reflexivity.
        -- apply Forall_forall. intros kv Hkv. apply in_map_iff in Hkv as (z & <- & Hz).
           rewrite forallb_forall in Hh. split; [apply (Hh z Hz) | apply wrapped_plain_meta].
Qed.

Lemma to_native_list (l : list obj) :
  (fix go (l : list obj) : res (list obj) :=
     match l with
     | [] => Ok []
     | v :: r => v' <- to_native v ;; r' <- go r ;; Ok (v' :: r')
     end) l = mapM to_native l.
Proof. induction l as [|v r IH]; [reflexivity|]. cbn [mapM]. rewrite IH. reflexivity. Qed.

Lemma to_json_list (l : list obj) :
  (fix go (l : list obj) : res (list obj) :=
     match l with
     | [] => Ok []
     | v :: r => v' <- to_json v ;; r' <- go r ;; Ok (v' :: r')
     end) l = mapM to_json l.
Proof. induction l as [|v r IH]; [reflexivity|]. cbn [mapM]. rewrite IH. reflexivity. Qed.

Lemma mapM_map_id {A B} (g : B -> res A) (h : A -> B) (l : list A) :
  Forall (fun x => g (h x) = Ok x) l -> mapM g (map h l) = Ok l.
Proof.
  induction 1 as [|x r Hx Hr IH]; [reflexivity|].
  cbn [mapM map]. rewrite Hx. cbn [bind]. rewrite IH. reflexivity.
Qed.

(** Unwrapping [wrapped_plain] gives the data back, through [to_native]
    and through [to_json]. *)
Lemma unwrap_plain (d : nat) :
  forall (x S0 : obj),
    roundtrippable x = true ->
    (depth x <= d)%nat ->
    to_native (wrapped_plain S0 x) = Ok x /\ to_json (wrapped_plain S0 x) = Ok x.
Proof.
  induction d as [|d IH]; intros x S0 Hr Hd.
  - destruct x; try discriminate; cbn [depth] in Hd; try lia;
      try (split; reflexivity).
    cbn [wrapped_plain wrapped_scalar to_native to_json]. destruct b; split; reflexivity.
  - destruct x; try discriminate; try (split; reflexivity).
    + cbn [wrapped_plain wrapped_scalar to_native to_json]. destruct b; split; reflexivity.
    + (* list *)
      cbn [roundtrippable] in Hr. cbn [depth] in Hd.
      apply le_S_n in Hd. apply depth_children in Hd.
      rewrite forallb_forall in Hr. rewrite Forall_forall in Hd.
      cbn [wrapped_plain to_native to_json]. rewrite to_native_list, to_json_list.
      rewrite (mapM_map_id to_native), (mapM_map_id to_json);
        [split; reflexivity | |];
        apply Forall_forall; intros y Hy; apply (IH y any_schema (Hr y Hy) (Hd y Hy)).
    + (* dict *)
      cbn [roundtrippable] in Hr. apply andb_prop in Hr as [Hr Hf].
      cbn [depth] in Hd. apply le_S_n in Hd. apply depth_values in Hd.
      rewrite forallb_forall in Hr. rewrite Forall_forall in Hd.
      assert (Hh : forallb (fun kv => hashable (fst kv)) l = true).
      { apply forallb_forall. intros kv Hkv. specialize (Hr kv Hkv).
        apply andb_prop in Hr as [Hk _]. apply scalar_key_hashable. exact Hk. }
      destruct (dict_of_items_fresh l [] Hh Hf) as [E _]. cbn [app] in E.
      cbn [wrapped_plain to_native to_json].
      assert (Gn : (fix go (l : list (obj * obj)) : res (list (obj * obj)) :=
                      match l with
                      | [] => Ok []
                      | (k, v) :: r =>
                          k' <- to_native k ;;
                          v' <- to_native v ;;
                          r' <- go r ;;
                          Ok ((k', v') :: r')
                      end)
                     (map (fun kv => (fst kv, wrapped_plain any_schema (snd kv))) l) = Ok l).
      { clear E Hf Hh. induction l as [|[k v] r IHl]; [reflexivity|].
        cbn [map fst snd].
        assert (Hk : to_native k = Ok k).
        { specialize (Hr (k, v) (or_introl eq_refl)). cbn [fst] in Hr.
          apply andb_prop in Hr as [Hk _]. destruct k; try discriminate; reflexivity. }
        rewrite Hk. cbn [bind].
        destruct (IH v any_schema) as [Hv _].
        { specialize (Hr (k, v) (or_introl eq_refl)). apply andb_prop in Hr as [_ Hv].
          exact Hv. }
        { apply (Hd (k, v)). left. reflexivity. }
        rewrite Hv. cbn [bind]. rewrite IHl; [reflexivity | |].
        - intros kv Hkv. apply Hr. right. exact Hkv.
        - intros kv Hkv. apply Hd. right. exact Hkv. }
      assert (Gj : (fix go (l : list (obj * obj)) : res (list (obj * obj)) :=
                      match l with
                      | [] => Ok []
                      | (k, v) :: r =>
                          v' <- to_json v ;;
                          r' <- go r ;;
                          Ok ((k, v') :: r')
                      end)
                     (map (fun kv => (fst kv, wrapped_plain any_schema (snd kv))) l) = Ok l).
      { clear E Hf Hh Gn. induction l as [|[k v] r IHl]; [reflexivity|].
        cbn [map fst snd].
        destruct (IH v any_schema) as [_ Hv].
        { specialize (Hr (k, v) (or_introl eq_refl)). apply andb_prop in Hr as [_ Hv].
          exact Hv. }
        { apply (Hd (k, v)). left. reflexivity. }
        rewrite Hv. cbn [bind]. rewrite IHl; [reflexivity | |].
        - intros kv Hkv. apply Hr. right. exact Hkv.
        - intros kv Hkv. apply Hd. right. exact Hkv. }
      rewrite Gn, Gj. cbn [bind]. rewrite E. split; reflexivity.
Qed.

(** X16: the round trip holds for plain data without sets and tuples.
    Scalars, lists and dicts with scalar keys, nested to any depth, come
    back unchanged from [to_native] after being wrapped under a falsy
    schema, and [to_json] gives the same; fuel 5 + depth suffices. *)
Theorem plain_data_round_trip (raw x : obj) (f : nat) :
  truthy raw = false ->
  roundtrippable x = true ->
  bind (wrap_meta_structure (5 + depth x + f) no_kwargs x raw) to_native = Ok x /\
  bind (wrap_meta_structure (5 + depth x + f) no_kwargs x raw) to_json = Ok x.
Proof.
  intros Hraw Hr.
  assert (E : wrap_meta_structure (5 + depth x + f) no_kwargs x raw =
              Ok (wrapped_plain empty_schema x)).
  { change (5 + depth x + f)%nat with (S (4 + depth x + f)).
    rewrite wrap_falsy; [| exact Hraw | destruct x; try discriminate; reflexivity].
    apply (wrap_plain_exact (depth x) x PNone f (or_introl eq_refl) Hr (le_n _)). }
  rewrite E. cbn [bind]. apply (unwrap_plain (depth x) x empty_schema Hr (le_n _)).
Qed.

Lemma plain_data_round_trip_witness :
  let x := PDict [(PStr "tags", PList [PStr "a"; PStr "b"]); (PInt 1, PBool true)] in
  bind (wrap_meta_structure (5 + depth x + 0) no_kwargs x (PDict [])) to_native = Ok x /\
  bind (wrap_meta_structure (5 + depth x + 0) no_kwargs x (PDict [])) to_json = Ok x.
Proof.
  apply (plain_data_round_trip (PDict [])
           (PDict [(PStr "tags", PList [PStr "a"; PStr "b"]); (PInt 1, PBool true)]) 0);
    reflexivity.
Defined.

End RoundTrip.

Section FrozenNodes.

Import meta_core.

(** X17: the two-argument [set] cannot change a tuple node or a set node.
    On a tuple node [_pull_args] has no case and raises
    NotImplementedError before anything else is done.  On a set node
    [_pull_args] takes the first argument as the value and None as the
    key, so the second argument is never looked at; the first argument is
    wrapped and the store at the end is the [__setitem__] that raises for
    sets: the call never returns, the node is the same, and once the
    wrapping went through the error is the TypeError of [__setitem__]. *)
Theorem set_leaves_tuple_and_set_nodes (fuel : nat) (s p key v v' : obj) :
  MetaContainer_set fuel (PMeta MetaTuple s p) key v =
    (Raise NotImplementedError, PMeta MetaTuple s p) /\
  snd (MetaContainer_set fuel (PMeta MetaSet s p) key v) = PMeta MetaSet s p /\
  (forall n, fst (MetaContainer_set fuel (PMeta MetaSet s p) key v) <> Ok n) /\
  MetaContainer_set fuel (PMeta MetaSet s p) key v =
    MetaContainer_set fuel (PMeta MetaSet s p) key v' /\
  (forall raw resolved wrapped,
      resolve_schema s PNone = Ok raw ->
      Schema.ensure raw = Ok resolved ->
      wrap_meta_structure fuel no_kwargs key resolved = Ok wrapped ->
      MetaContainer_set fuel (PMeta MetaSet s p) key v =
        (Raise (TypeError SetitemOnSet), PMeta MetaSet s p)).
Proof.
  split; [reflexivity|].
  assert (Hlast : forall raw resolved wrapped,
             resolve_schema s PNone = Ok raw ->
             Schema.ensure raw = Ok resolved ->
             wrap_meta_structure fuel no_kwargs key resolved = Ok wrapped ->
             MetaContainer_set fuel (PMeta MetaSet s p) key v =
               (Raise (TypeError SetitemOnSet), PMeta MetaSet s p)).
  { intros raw resolved wrapped H1 H2 H3.
    unfold MetaContainer_set. cbn [_pull_args bind node_schema].
    rewrite H1. cbn [bind]. rewrite H2. cbn [bind]. rewrite H3. cbn [bind].
    destruct fuel as [|f]; [cbn in H3; discriminate H3|].
    cbn [MetaContainer_setitem]. reflexivity. }
  assert (Hset : snd (MetaContainer_set fuel (PMeta MetaSet s p) key v) =
                   PMeta MetaSet s p /\
                 (forall n, fst (MetaContainer_set fuel (PMeta MetaSet s p) key v) <> Ok n) /\
                 MetaContainer_set fuel (PMeta MetaSet s p) key v =
                   MetaContainer_set fuel (PMeta MetaSet s p) key v').
  { clear Hlast.
    unfold MetaContainer_set. cbn [_pull_args bind node_schema].
    destruct (resolve_schema s PNone) as [raw | e]; cbn [bind];
      [| split; [reflexivity | split; [intros n; discriminate | reflexivity]]].
    destruct (Schema.ensure raw) as [resolved | e]; cbn [bind];
      [| split; [reflexivity | split; [intros n; discriminate | reflexivity]]].
    destruct (wrap_meta_structure fuel no_kwargs key resolved) as [wrapped | e] eqn:W;
      cbn [bind];
      [| split; [reflexivity | split; [intros n; discriminate | reflexivity]]].
    destruct fuel as [|f]; [cbn in W; discriminate W|].
    cbn [MetaContainer_setitem].
    split; [reflexivity | split; [intros n; discriminate | reflexivity]]. }
  destruct Hset as (Hnode & Hnever & Hsecond).
  exact (conj Hnode (conj Hnever (conj Hsecond Hlast))).
Qed.

Lemma set_leaves_tuple_and_set_nodes_witness :
  MetaContainer_set 6 (PMeta MetaSet any_schema (PSet [])) (PInt 0) (PInt 1) =
    (Raise (TypeError SetitemOnSet), PMeta MetaSet any_schema (PSet [])).
Proof.
  destruct (set_leaves_tuple_and_set_nodes 6 any_schema (PSet []) (PInt 0) (PInt 1) (PInt 1))
    as (_ & _ & _ & _ & H).
  eapply H; reflexivity.
Defined.

End FrozenNodes.
